(** * The Korean learning game (streamlit_app.py): session step machine

    A shallow embedding of [streamlit_app.py].  One run of the script is a
    computation over a [World]: the Streamlit session state, the log of
    requests sent to the chat-completion backend, the number of random
    draws taken so far and the elements rendered on the page.  The state
    survives an exception, as [st.session_state] does.

    The backend and the random generator are the two external
    collaborators; they are section variables, so every theorem holds for
    all of their behaviours.  What Streamlit itself does is modelled at the
    boundary the script sees:
    - [st.button(label)] returns True in the run triggered by pressing that
      button; an [on_click] callback runs before the script runs again;
    - only a button rendered by the previous run can be pressed;
    - [st.radio] returns the current selection, [st.stop()] ends the run;
    - an uncaught exception ends the run and keeps the session.
    [random.shuffle] is the loop of CPython's [random.py]. *)

From Stdlib Require Import ZArith Lia.
From stdpp Require Import gmap strings list fin_maps.

Local Open Scope string_scope.
Local Open Scope Z_scope.

(** ** Python values *)

(** The values kept in the quiz dictionaries and handed to widgets: [None],
    a [str], or a list of [str].  The prompts ask the backend for string
    fields only, so the values of a parsed reply are strings. *)
Inductive pyval : Type :=
| VNone
| VStr (s : string)
| VList (l : list string).

#[global] Instance pyval_eq_dec : EqDecision pyval.
Proof. solve_decision. Defined.

(** Python's [==] on these values. *)
Definition py_eqb (a b : pyval) : bool := bool_decide (a = b).

(** A parsed reply: the dict [json.loads] returns, as its items in
    insertion order ([.values()] is order-sensitive). *)
Definition json_object : Type := list (string * string).

Fixpoint json_get (k : string) (d : json_object) : option string :=
  match d with
  | [] => None
  | (k', v) :: d' => if String.eqb k k' then Some v else json_get k d'
  end.

(** [d.values()] *)
Definition values (d : json_object) : list string := map snd d.

(** ** Exceptions and outcomes of a script run *)

Inductive exn : Type :=
| KeyError (k : string)      (* [d[k]] on a dict without [k] *)
| TypeError                  (* subscripting [None] *)
| APIError.                  (* raised by the client or by [json.loads] *)

(** [Halt] is [st.stop()]: the run ends at once, nothing is raised to the
    user. *)
Inductive outcome (A : Type) : Type :=
| Ok (a : A)
| Raise (e : exn)
| Halt.
Arguments Ok {A} a.
Arguments Raise {A} e.
Arguments Halt {A}.

(** ** Session state and page *)

(** The six system prompts, by the function that owns them. *)
Inductive system_prompt : Type :=
| prompt_random_topic
| prompt_korean_sentence
| prompt_english_to_korean
| prompt_english_pronunciation
| prompt_hangul_pronunciation
| prompt_wrong_answers.

Inductive callback : Type := cb_next_step.

Inductive element : Type :=
| ETitle (s : string)
| ESubheader (s : string)
| EWrite (args : list pyval)
| EWriteBold (v : pyval)                       (* st.write(f"**{v}**") *)
| ESuccess (s : string)
| EError (s : string)
| ERadio (label : string) (options : pyval) (key : string)
| EButton (label : string) (on_click : option callback)
| EColumns (n : nat).

#[global] Instance callback_eq_dec : EqDecision callback.
Proof. solve_decision. Defined.
#[global] Instance element_eq_dec : EqDecision element.
Proof. solve_decision. Defined.

(** [st.session_state] once lines 112-124 have run. *)
Record SessionState : Type := mkSession {
  topic_info : option json_object;
  step : Z;
  hangul_quiz_data : gmap string pyval;
  english_quiz_data : gmap string pyval;
  fill_blank_data : gmap string pyval
}.

Record World : Type := mkWorld {
  session_state : SessionState;
  api_calls : list (system_prompt * string);   (* requests sent so far *)
  rng_draws : nat;                             (* random draws taken so far *)
  page : list element                          (* rendered by this run *)
}.

(** What the user did to trigger the run: the button pressed, if any, and
    the option currently selected in each radio group. *)
Record UserInput : Type := mkInput {
  clicked : option string;
  radio_choice : string -> pyval -> pyval      (* key, options |-> selection *)
}.

(** ** The run monad: state that survives exceptions *)

Definition M (A : Type) : Type := World -> outcome A * World.

Definition ret {A} (a : A) : M A := fun w => (Ok a, w).

Definition bind {A B} (m : M A) (f : A -> M B) : M B :=
  fun w =>
    match m w with
    | (Ok a, w') => f a w'
    | (Raise e, w') => (Raise e, w')
    | (Halt, w') => (Halt, w')
    end.

Definition raise {A} (e : exn) : M A := fun w => (Raise e, w).

Notation "x <- c1 ;; c2" := (bind c1 (fun x => c2))
  (at level 100, c1 at next level, right associativity).
Notation "c1 ;; c2" := (bind c1 (fun _ => c2))
  (at level 100, right associativity).

Definition get_session : M SessionState := fun w => (Ok (session_state w), w).

Definition modify_session (f : SessionState -> SessionState) : M unit :=
  fun w => (Ok tt, mkWorld (f (session_state w)) (api_calls w) (rng_draws w) (page w)).

Definition render (e : element) : M unit :=
  fun w => (Ok tt, mkWorld (session_state w) (api_calls w) (rng_draws w) (page w ++ [e])).

(** [d[k]] on a parsed reply, on [st.session_state.topic_info], and on a
    quiz dictionary *)
Definition json_getitem (d : json_object) (k : string) : M string :=
  match json_get k d with
  | Some v => ret v
  | None => raise (KeyError k)
  end.

Definition topic_getitem (t : option json_object) (k : string) : M string :=
  match t with
  | None => raise TypeError
  | Some d => json_getitem d k
  end.

Definition dict_getitem (d : gmap string pyval) (k : string) : M pyval :=
  match d !! k with
  | Some v => ret v
  | None => raise (KeyError k)
  end.

(** ** Streamlit widgets *)

Definition st_subheader (s : string) : M unit := render (ESubheader s).
Definition st_write (args : list pyval) : M unit := render (EWrite args).
Definition st_write_bold (v : pyval) : M unit := render (EWriteBold v).
Definition st_success (s : string) : M unit := render (ESuccess s).
Definition st_error (s : string) : M unit := render (EError s).
Definition st_columns (n : nat) : M unit := render (EColumns n).
Definition st_stop : M unit := fun w => (Halt, w).

Definition st_radio (ui : UserInput) (label : string) (options : pyval)
    (key : string) : M pyval :=
  render (ERadio label options key) ;; ret (radio_choice ui key options).

(** [st.button(label)] is true in the run triggered by pressing it. *)
Definition st_button (ui : UserInput) (label : string)
    (on_click : option callback) : M bool :=
  render (EButton label on_click) ;;
  ret (bool_decide (clicked ui = Some label)).

(** [x[i], x[j] = x[j], x[i]]; both indices are in range wherever
    [random.shuffle] uses it (Python would raise IndexError otherwise). *)
Definition swap {A} (i j : nat) (x : list A) : list A :=
  match x !! i, x !! j with
  | Some a, Some b => <[j:=a]> (<[i:=b]> x)
  | _, _ => x
  end.

Section Game.

(** The reply to the n-th request ([None]: the call raises), and the n-th
    value of the random generator. *)
Variable backend : nat -> option json_object.
Variable rand : nat -> nat.

(** *** 2. Helper functions *)

Definition get_json_response (sp : system_prompt) (user_prompt : string)
    : M json_object :=
  fun w =>
    let w' := mkWorld (session_state w) (api_calls w ++ [(sp, user_prompt)])
                      (rng_draws w) (page w) in
    match backend (length (api_calls w)) with
    | Some d => (Ok d, w')
    | None => (Raise APIError, w')
    end.

Definition get_random_topic : M json_object :=
  get_json_response prompt_random_topic "Come up with a random noun or phrase.".

Definition make_korean_sentence (topic : string) : M json_object :=
  get_json_response prompt_korean_sentence topic.

Definition english_to_korean (english : string) : M string :=
  r <- get_json_response prompt_english_to_korean english ;;
  json_getitem r "hangul".

Definition english_to_korean_pronunciation (english : string) : M json_object :=
  get_json_response prompt_english_pronunciation english.

Definition hangul_to_korean_pronunciation (korean : string) : M json_object :=
  get_json_response prompt_hangul_pronunciation korean.

Definition create_wrong_answers (correct_answer : string) : M (list string) :=
  wrong_answers <- get_json_response prompt_wrong_answers correct_answer ;;
  ret (values wrong_answers).

(** [random.shuffle]: for i from len(x)-1 down to 1, exchange x[i] with
    x[randbelow(i+1)]. *)
Definition randbelow (n : nat) : M nat :=
  fun w => (Ok (rand (rng_draws w) `mod` n)%nat,
            mkWorld (session_state w) (api_calls w) (S (rng_draws w)) (page w)).

Fixpoint shuffle_from {A} (i : nat) (x : list A) : M (list A) :=
  match i with
  | O => ret x
  | S i' => j <- randbelow (S i) ;; shuffle_from i' (swap i j x)
  end.

Definition random_shuffle {A} (x : list A) : M (list A) :=
  shuffle_from (length x - 1)%nat x.

(** *** 3. Streamlit setup *)

(** Lines 112-124: the defaults of a fresh session. *)
Definition fresh_session : SessionState :=
  mkSession None 0 ∅ ∅ ∅.

Definition next_step : M unit :=
  modify_session (fun s =>
    mkSession (topic_info s) (step s + 1) (hangul_quiz_data s)
              (english_quiz_data s) (fill_blank_data s)).

Definition reset_game : M unit :=
  modify_session (fun s => mkSession None (step s) (hangul_quiz_data s)
                             (english_quiz_data s) (fill_blank_data s)) ;;
  modify_session (fun s => mkSession (topic_info s) 0 (hangul_quiz_data s)
                             (english_quiz_data s) (fill_blank_data s)) ;;
  modify_session (fun s => mkSession (topic_info s) (step s) ∅
                             (english_quiz_data s) (fill_blank_data s)) ;;
  modify_session (fun s => mkSession (topic_info s) (step s) (hangul_quiz_data s)
                             ∅ (fill_blank_data s)) ;;
  modify_session (fun s => mkSession (topic_info s) (step s) (hangul_quiz_data s)
                             (english_quiz_data s) ∅).

Definition set_topic_info (t : option json_object) : M unit :=
  modify_session (fun s => mkSession t (step s) (hangul_quiz_data s)
                             (english_quiz_data s) (fill_blank_data s)).

Definition set_hangul_quiz_data (d : gmap string pyval) : M unit :=
  modify_session (fun s => mkSession (topic_info s) (step s) d
                             (english_quiz_data s) (fill_blank_data s)).

Definition set_english_quiz_data (d : gmap string pyval) : M unit :=
  modify_session (fun s => mkSession (topic_info s) (step s) (hangul_quiz_data s)
                             d (fill_blank_data s)).

Definition set_fill_blank_data (d : gmap string pyval) : M unit :=
  modify_session (fun s => mkSession (topic_info s) (step s) (hangul_quiz_data s)
                             (english_quiz_data s) d).

(** [not d] for a dict *)
Definition dict_is_empty (d : gmap string pyval) : bool := bool_decide (d = ∅).

(** *** 4. Step-by-step logic *)

Definition run_game_step (ui : UserInput) : M unit :=
  s0 <- get_session ;;
  let step := step s0 in
  (* STEP 0: Get a random topic *)
  if step =? 0 then
    st_subheader "Step 1: Generate a Random Topic" ;;
    (match topic_info s0 with
     | None => t <- get_random_topic ;; set_topic_info (Some t)
     | Some _ => ret tt
     end) ;;
    s <- get_session ;;
    let topic_info := topic_info s in
    topic <- topic_getitem topic_info "topic" ;;
    st_write [VStr "**Topic:**"; VStr topic] ;;
    tutorial <- topic_getitem topic_info "tutorial" ;;
    st_write [VStr "**Tutorial:**"; VStr tutorial] ;;
    b <- st_button ui "Next: Pronunciation from Hangul" None ;;
    if b : bool then next_step else ret tt
  (* STEP 1: Pronunciation from Hangul *)
  else if step =? 1 then
    st_subheader "Step 2: Pronunciation from Hangul" ;;
    topic <- topic_getitem (topic_info s0) "topic" ;;
    (if dict_is_empty (hangul_quiz_data s0) then
       hangul <- english_to_korean topic ;;
       translation <- hangul_to_korean_pronunciation hangul ;;
       correct_answer <- json_getitem translation "final_sequence" ;;
       explanation <- json_getitem translation "thought_process" ;;
       wrong_answers <- create_wrong_answers correct_answer ;;
       answer_choices <- random_shuffle (wrong_answers ++ [correct_answer]) ;;
       set_hangul_quiz_data
         (<["hangul" := VStr hangul]>
          (<["correct_answer" := VStr correct_answer]>
           (<["explanation" := VStr explanation]>
            (<["answer_choices" := VList answer_choices]> ∅))))
     else ret tt) ;;
    s <- get_session ;;
    let data := hangul_quiz_data s in
    st_write [VStr "What is the pronunciation of the following Korean text?"] ;;
    hangul <- dict_getitem data "hangul" ;;
    st_write_bold hangul ;;
    options <- dict_getitem data "answer_choices" ;;
    user_choice <- st_radio ui "Choose the correct answer:" options "hangul_choice" ;;
    b <- st_button ui "Check Answer" None ;;
    if b : bool then
      correct_answer <- dict_getitem data "correct_answer" ;;
      (if py_eqb user_choice correct_answer then st_success "Correct!"
       else
         st_error "Wrong!" ;;
         correct_answer <- dict_getitem data "correct_answer" ;;
         st_write [VStr "**Correct Answer:**"; correct_answer] ;;
         explanation <- dict_getitem data "explanation" ;;
         st_write [VStr "**Explanation:**"; explanation]) ;;
      st_button ui "Next: Pronunciation from English" (Some cb_next_step) ;;
      ret tt
    else ret tt
  (* STEP 2: Pronunciation from English *)
  else if step =? 2 then
    st_subheader "Step 3: Pronunciation from English" ;;
    topic <- topic_getitem (topic_info s0) "topic" ;;
    (if dict_is_empty (english_quiz_data s0) then
       translation <- english_to_korean_pronunciation topic ;;
       correct_answer <- json_getitem translation "final_sequence" ;;
       explanation <- json_getitem translation "thought_process" ;;
       wrong_answers <- create_wrong_answers correct_answer ;;
       answer_choices <- random_shuffle (wrong_answers ++ [correct_answer]) ;;
       set_english_quiz_data
         (<["correct_answer" := VStr correct_answer]>
          (<["explanation" := VStr explanation]>
           (<["answer_choices" := VList answer_choices]> ∅)))
     else ret tt) ;;
    s <- get_session ;;
    let data := english_quiz_data s in
    st_write [VStr "What is the Korean pronunciation of this English word or phrase?"] ;;
    st_write_bold (VStr topic) ;;
    options <- dict_getitem data "answer_choices" ;;
    user_choice <- st_radio ui "Choose the correct answer:" options "english_choice" ;;
    b <- st_button ui "Check Answer" None ;;
    if b : bool then
      correct_answer <- dict_getitem data "correct_answer" ;;
      (if py_eqb user_choice correct_answer then st_success "Correct!"
       else
         st_error "Wrong!" ;;
         correct_answer <- dict_getitem data "correct_answer" ;;
         st_write [VStr "**Correct Answer:**"; correct_answer] ;;
         explanation <- dict_getitem data "explanation" ;;
         st_write [VStr "**Explanation:**"; explanation]) ;;
      st_button ui "Next: Fill-in-the-Blank" (Some cb_next_step) ;;
      ret tt
    else ret tt
  (* STEP 3: Fill-in-the-Blank *)
  else if step =? 3 then
    st_subheader "Step 4: Fill in the Blank" ;;
    topic <- topic_getitem (topic_info s0) "topic" ;;
    (if dict_is_empty (fill_blank_data s0) then
       sentence_data <- make_korean_sentence topic ;;
       subject <- json_getitem sentence_data "subject" ;;
       sentence_with_blank <- json_getitem sentence_data "sentence_with_blank" ;;
       translation <- hangul_to_korean_pronunciation subject ;;
       correct_answer <- json_getitem translation "final_sequence" ;;
       explanation <- json_getitem translation "thought_process" ;;
       wrong_answers <- create_wrong_answers correct_answer ;;
       answer_choices <- random_shuffle (wrong_answers ++ [correct_answer]) ;;
       set_fill_blank_data
         (<["sentence_with_blank" := VStr sentence_with_blank]>
          (<["correct_answer" := VStr correct_answer]>
           (<["explanation" := VStr explanation]>
            (<["answer_choices" := VList answer_choices]> ∅))))
     else ret tt) ;;
    s <- get_session ;;
    let data := fill_blank_data s in
    st_write [VStr "Fill in the blank in this Korean sentence:"] ;;
    sentence_with_blank <- dict_getitem data "sentence_with_blank" ;;
    st_write_bold sentence_with_blank ;;
    options <- dict_getitem data "answer_choices" ;;
    user_choice <- st_radio ui "Which subject completes the sentence?" options "fillin_choice" ;;
    b <- st_button ui "Check Answer" None ;;
    if b : bool then
      correct_answer <- dict_getitem data "correct_answer" ;;
      (if py_eqb user_choice correct_answer then st_success "Correct!"
       else
         st_error "Wrong!" ;;
         correct_answer <- dict_getitem data "correct_answer" ;;
         st_write [VStr "**Correct Answer:**"; correct_answer] ;;
         explanation <- dict_getitem data "explanation" ;;
         st_write [VStr "**Explanation:**"; explanation]) ;;
      st_button ui "Next: Continue or End" (Some cb_next_step) ;;
      ret tt
    else ret tt
  (* STEP 4: Ask to continue or end *)
  else if step =? 4 then
    st_subheader "Step 5: Continue or End?" ;;
    st_columns 2 ;;
    b1 <- st_button ui "New Topic!" None ;;
    (if b1 : bool then reset_game else ret tt) ;;
    b2 <- st_button ui "End Game" None ;;
    if b2 : bool then
      st_write [VStr "---"] ;;
      st_write [VStr "# Thanks for playing!"] ;;
      st_stop
    else ret tt
  else ret tt.

(** *** 5. Start the game *)

Definition st_title (s : string) : M unit := render (ETitle s).

(** One run of the whole script, top to bottom. *)
Definition script (ui : UserInput) : M unit :=
  st_title "Korean Learning Game" ;;
  run_game_step ui.

(** *** Streamlit's rerun loop *)

(** The button with this label on the page, with its [on_click]. *)
Fixpoint button_on_page (label : string) (pg : list element)
    : option (option callback) :=
  match pg with
  | [] => None
  | EButton l cb :: pg' =>
      if String.eqb label l then Some cb else button_on_page label pg'
  | _ :: pg' => button_on_page label pg'
  end.

Definition run_callback (cb : callback) : M unit :=
  match cb with
  | cb_next_step => next_step
  end.

Definition clear_page : M unit :=
  fun w => (Ok tt, mkWorld (session_state w) (api_calls w) (rng_draws w) []).

(** A user interaction: the [on_click] callback of the pressed button runs
    first, then the script runs again on an empty page. *)
Definition rerun (ui : UserInput) : M unit :=
  fun w =>
    ((match clicked ui with
      | Some l =>
          match button_on_page l (page w) with
          | Some (Some cb) => run_callback cb
          | _ => ret tt
          end
      | None => ret tt
      end) ;;
     clear_page ;;
     script ui) w.

(** Only a button that is on the page can be pressed. *)
Definition enabled (ui : UserInput) (w : World) : Prop :=
  match clicked ui with
  | Some l => is_Some (button_on_page l (page w))
  | None => True
  end.

(** The worlds a session can be in: the first load of the page, then any
    sequence of enabled interactions. *)
Inductive reachable : World -> Prop :=
| reach_load ui :
    clicked ui = None ->
    reachable (snd (script ui (mkWorld fresh_session [] 0 [])))
| reach_rerun ui w :
    reachable w -> enabled ui w -> reachable (snd (rerun ui w)).

End Game.

(** ** Vocabulary of the properties *)

(** The memo slot of a quiz stage. *)
Definition stage_memo (s : Z) (σ : SessionState) : gmap string pyval :=
  if s =? 1 then hangul_quiz_data σ
  else if s =? 2 then english_quiz_data σ
  else if s =? 3 then fill_blank_data σ
  else ∅.

(** The stage's content has been generated: the test the script itself
    makes before generating ([topic_info is None], [not ..._quiz_data]). *)
Definition stage_filled (s : Z) (σ : SessionState) : bool :=
  if s =? 0 then bool_decide (topic_info σ <> None)
  else negb (dict_is_empty (stage_memo s σ)).

(** The field a quiz stage displays besides its answer set. *)
Definition display_key (s : Z) : option string :=
  if s =? 1 then Some "hangul"
  else if s =? 3 then Some "sentence_with_blank"
  else None.

Definition has_key (k : string) (d : gmap string pyval) : bool :=
  bool_decide (is_Some (d !! k)).

(** A quiz stage can be rendered and checked without a KeyError. *)
Definition quiz_ready (s : Z) (σ : SessionState) : bool :=
  match topic_info σ with
  | Some t => bool_decide (is_Some (json_get "topic" t))
  | None => false
  end
  && has_key "answer_choices" (stage_memo s σ)
  && has_key "correct_answer" (stage_memo s σ)
  && has_key "explanation" (stage_memo s σ)
  && match display_key s with
     | Some k => has_key k (stage_memo s σ)
     | None => true
     end.


Definition is_callback_button (e : element) : bool :=
  match e with
  | EButton _ (Some _) => true
  | _ => false
  end.

(** [l.count(c)] *)
Definition occurrences (c : string) (l : list string) : nat :=
  length (filter (λ x, x = c) l).

(** The stage index is in range, and a button that advances is on the page
    only at a quiz stage. *)
Definition page_consistent (w : World) : Prop :=
  0 <= step (session_state w) <= 4
  /\ (existsb is_callback_button (page w) = true ->
      1 <= step (session_state w) <= 3).

(** The radio group of a quiz stage. *)
Definition radio_key (s : Z) : string :=
  if s =? 1 then "hangul_choice"
  else if s =? 2 then "english_choice"
  else "fillin_choice".


(** The values written on the page under a heading: [st.write(tag, v)]. *)
Definition revealed (tag : string) (pg : list element) : list pyval :=
  omap (λ e, match e with
             | EWrite [VStr t; v] => if String.eqb t tag then Some v else None
             | _ => None
             end) pg.

(** The most requests one run sends at a stage. *)
Definition request_budget (s : Z) : nat :=
  if s =? 0 then 1 else if s =? 1 then 3 else if s =? 2 then 2
  else if s =? 3 then 3 else 0.



Section Runs.

Variable backend : nat -> option json_object.
Variable rand : nat -> nat.

(** Repeated entries of the current stage: the script body run once per
    input, each run on the world the previous one left. *)
Fixpoint entries (uis : list UserInput) (w : World) : World :=
  match uis with
  | [] => w
  | ui :: uis' => entries uis' (snd (run_game_step backend rand ui w))
  end.

(** A sequence of enabled interactions. *)
Inductive session_run : World -> list UserInput -> World -> Prop :=
| run_nil w : session_run w [] w
| run_cons ui uis w w' :
    enabled ui w ->
    session_run (snd (rerun backend rand ui w)) uis w' ->
    session_run w (ui :: uis) w'.

(** What each content provider leaves behind when it succeeds on world [w]:
    the requests it sent, in order, and the value it stored, in terms of
    the backend's replies to those requests. *)

(** Stage 0: one request; the reply is the topic. *)
Definition topic_provider_result (w w' : World) : Prop :=
  let n := length (api_calls w) in
  exists t,
    backend n = Some t
    /\ api_calls w' = (api_calls w
         ++ [(prompt_random_topic, "Come up with a random noun or phrase.")])%list
    /\ topic_info (session_state w') = Some t.

(** Stage 1: the topic is translated to Hangul, the Hangul is
    transliterated, and distractors are requested for the transliteration. *)
Definition hangul_provider_result (w w' : World) : Prop :=
  let n := length (api_calls w) in
  exists t topic r1 hangul r2 correct_answer explanation r3 answer_choices,
    topic_info (session_state w) = Some t
    /\ json_get "topic" t = Some topic
    /\ backend n = Some r1
    /\ json_get "hangul" r1 = Some hangul
    /\ backend (n + 1)%nat = Some r2
    /\ json_get "final_sequence" r2 = Some correct_answer
    /\ json_get "thought_process" r2 = Some explanation
    /\ backend (n + 2)%nat = Some r3
    /\ api_calls w' = (api_calls w
                       ++ [(prompt_english_to_korean, topic);
                           (prompt_hangul_pronunciation, hangul);
                           (prompt_wrong_answers, correct_answer)])%list
    /\ answer_choices ≡ₚ values r3 ++ [correct_answer]
    /\ hangul_quiz_data (session_state w')
       = <["hangul" := VStr hangul]>
           (<["correct_answer" := VStr correct_answer]>
              (<["explanation" := VStr explanation]>
                 (<["answer_choices" := VList answer_choices]> ∅)))
    /\ rng_draws w' = (rng_draws w + length (values r3))%nat.

(** Stage 2: the topic itself is transliterated, and distractors are
    requested for the transliteration. *)
Definition english_provider_result (w w' : World) : Prop :=
  let n := length (api_calls w) in
  exists t topic r1 correct_answer explanation r2 answer_choices,
    topic_info (session_state w) = Some t
    /\ json_get "topic" t = Some topic
    /\ backend n = Some r1
    /\ json_get "final_sequence" r1 = Some correct_answer
    /\ json_get "thought_process" r1 = Some explanation
    /\ backend (n + 1)%nat = Some r2
    /\ api_calls w' = (api_calls w
                       ++ [(prompt_english_pronunciation, topic);
                           (prompt_wrong_answers, correct_answer)])%list
    /\ answer_choices ≡ₚ values r2 ++ [correct_answer]
    /\ english_quiz_data (session_state w')
       = <["correct_answer" := VStr correct_answer]>
           (<["explanation" := VStr explanation]>
              (<["answer_choices" := VList answer_choices]> ∅))
    /\ rng_draws w' = (rng_draws w + length (values r2))%nat.

(** Stage 3: a sentence is requested for the topic, its elided subject is
    transliterated, and distractors are requested for the transliteration. *)
Definition fill_blank_provider_result (w w' : World) : Prop :=
  let n := length (api_calls w) in
  exists t topic r1 subject sentence_with_blank r2 correct_answer explanation
         r3 answer_choices,
    topic_info (session_state w) = Some t
    /\ json_get "topic" t = Some topic
    /\ backend n = Some r1
    /\ json_get "subject" r1 = Some subject
    /\ json_get "sentence_with_blank" r1 = Some sentence_with_blank
    /\ backend (n + 1)%nat = Some r2
    /\ json_get "final_sequence" r2 = Some correct_answer
    /\ json_get "thought_process" r2 = Some explanation
    /\ backend (n + 2)%nat = Some r3
    /\ api_calls w' = (api_calls w
                       ++ [(prompt_korean_sentence, topic);
                           (prompt_hangul_pronunciation, subject);
                           (prompt_wrong_answers, correct_answer)])%list
    /\ answer_choices ≡ₚ values r3 ++ [correct_answer]
    /\ fill_blank_data (session_state w')
       = <["sentence_with_blank" := VStr sentence_with_blank]>
           (<["correct_answer" := VStr correct_answer]>
              (<["explanation" := VStr explanation]>
                 (<["answer_choices" := VList answer_choices]> ∅)))
    /\ rng_draws w' = (rng_draws w + length (values r3))%nat.

(** The provider of a stage. *)
Definition provider_result (s : Z) (w w' : World) : Prop :=
  if s =? 0 then topic_provider_result w w'
  else if s =? 1 then hangul_provider_result w w'
  else if s =? 2 then english_provider_result w w'
  else if s =? 3 then fill_blank_provider_result w w'
  else True.

End Runs.

(** ** A concrete session *)

Definition apple : json_object := [("topic", "apple"); ("tutorial", "sagwa")].

(** The replies of a well-behaved backend, for a session that starts with
    an empty request log. *)
Definition demo_backend (n : nat) : option json_object :=
  match n with
  | 0%nat => Some apple
  | 1%nat => Some [("hangul", "sagwa")]
  | 2%nat => Some [("thought_process", "sa-gwa"); ("final_sequence", "ap-eul")]
  | 3%nat => Some [("mutation_1", "a-peul"); ("mutation_2", "ap-eu");
                   ("mutation_3", "a-pool")]
  | _ => None
  end.

Definition demo_rand (n : nat) : nat := n.

(** The first option is selected until the user picks another. *)
Definition first_option (key : string) (options : pyval) : pyval :=
  match options with
  | VList (x :: _) => VStr x
  | _ => VNone
  end.

Definition no_click : UserInput := mkInput None first_option.
Definition click (label : string) : UserInput := mkInput (Some label) first_option.
Definition answer (choice : string) : UserInput :=
  mkInput (Some "Check Answer") (fun _ _ => VStr choice).

Definition new_world : World := mkWorld fresh_session [] 0 [].

(** Stage 1 reached with the topic in place, nothing generated yet. *)
Definition stage1_world : World :=
  mkWorld (mkSession (Some apple) 1 ∅ ∅ ∅)
          [(prompt_random_topic, "Come up with a random noun or phrase.")] 0 [].

(** The same world once stage 1 has been entered. *)
Definition quiz1_world : World :=
  mkWorld (session_state (snd (run_game_step demo_backend demo_rand no_click stage1_world)))
          (api_calls (snd (run_game_step demo_backend demo_rand no_click stage1_world)))
          (rng_draws (snd (run_game_step demo_backend demo_rand no_click stage1_world)))
          [].

(** ... and once its page has been rendered. *)
Definition quiz1_page_world : World :=
  snd (run_game_step demo_backend demo_rand no_click quiz1_world).

(** The world after the first load of the page. *)
Definition loaded_world : World :=
  snd (script demo_backend demo_rand no_click new_world).

Definition stage4_world : World :=
  mkWorld (mkSession (Some apple) 4 ∅ ∅ ∅) [] 0 [].

(** A backend that sends only two distractors. *)
Definition two_distractors (n : nat) : option json_object :=
  match n with
  | 3%nat => Some [("mutation_1", "a-peul"); ("mutation_2", "ap-eu")]
  | _ => demo_backend n
  end.

(** A backend whose distractors are all the same string. *)
Definition same_distractors (n : nat) : option json_object :=
  Some [("mutation_1", "ap-eu"); ("mutation_2", "ap-eu"); ("mutation_3", "ap-eu")].

(** A backend whose transliteration lacks [final_sequence]. *)
Definition no_final_sequence (n : nat) : option json_object :=
  match n with
  | 2%nat => Some [("thought_process", "sa-gwa")]
  | _ => demo_backend n
  end.

(** A backend whose topic reply lacks [topic]. *)
Definition no_topic (n : nat) : option json_object :=
  Some [("tutorial", "sagwa")].

(** Stage 2 and stage 3 reached with the topic in place, nothing requested
    yet in the log. *)
Definition stage2_world : World :=
  mkWorld (mkSession (Some apple) 2 ∅ ∅ ∅) [] 0 [].

Definition stage3_world : World :=
  mkWorld (mkSession (Some apple) 3 ∅ ∅ ∅) [] 0 [].

(** The replies stage 2 needs: a transliteration, then distractors. *)
Definition english_backend (n : nat) : option json_object :=
  match n with
  | 0%nat => Some [("thought_process", "sa-gwa"); ("final_sequence", "ap-eul")]
  | 1%nat => Some [("mutation_1", "a-peul"); ("mutation_2", "ap-eu");
                   ("mutation_3", "a-pool")]
  | _ => None
  end.

(** The replies stage 3 needs: a sentence, a transliteration of its
    subject, then distractors. *)
Definition sentence_backend (n : nat) : option json_object :=
  match n with
  | 0%nat => Some [("subject", "sagwa"); ("sentence_with_blank", "___ red")]
  | 1%nat => Some [("thought_process", "sa-gwa"); ("final_sequence", "sa-gwa")]
  | 2%nat => Some [("mutation_1", "sa-ga"); ("mutation_2", "so-gwa");
                   ("mutation_3", "sa-kwa")]
  | _ => None
  end.


(** A session advanced past stage 4. *)
Definition dead_world : World := snd (next_step stage4_world).


(** ** Symbolic execution of a run *)

Ltac exec_unfold :=
  cbv [bind st_subheader st_title render topic_getitem json_getitem ret raise
       get_session st_write st_write_bold dict_getitem st_radio st_button
       st_success st_error st_columns st_stop english_to_korean
       hangul_to_korean_pronunciation english_to_korean_pronunciation
       make_korean_sentence create_wrong_answers get_random_topic
       get_json_response set_topic_info set_hangul_quiz_data
       set_english_quiz_data set_fill_blank_data modify_session next_step
       reset_game clear_page run_callback].

Ltac exec_proj :=
  cbn [session_state api_calls rng_draws page topic_info step
       hangul_quiz_data english_quiz_data fill_blank_data fst snd].

(** Enter the branch of [run_game_step] selected by [H : step _ = n]. *)
Ltac enter_stage H :=
  unfold run_game_step; unfold bind at 1; cbn [get_session];
  rewrite ?H; cbn [Z.eqb Pos.eqb].

(** * Facts *)

(** ** [random.shuffle] permutes its argument *)

Lemma insert_cons_Permutation {A} (l : list A) (i : nat) (x y : A) :
  l !! i = Some x -> x :: <[i:=y]> l ≡ₚ y :: l.
Proof.
  revert i. induction l as [|a l IH]; intros [|i] Hi; simplify_eq/=.
  - apply Permutation_swap.
  - etrans; [apply Permutation_swap|].
    etrans; [apply Permutation_skip, (IH _ Hi)|apply Permutation_swap].
Qed.

Lemma swap_Permutation {A} (i j : nat) (x : list A) : swap i j x ≡ₚ x.
Proof.
  unfold swap. destruct (x !! i) as [a|] eqn:Hi; [|done].
  destruct (x !! j) as [b|] eqn:Hj; [|done].
  destruct (decide (i = j)) as [->|Hne].
  - simplify_eq. rewrite list_insert_insert_eq. by rewrite list_insert_id.
  - apply (inj (cons b)).
    rewrite (insert_cons_Permutation (<[i:=b]> x) j b a).
    + by apply insert_cons_Permutation.
    + by rewrite list_lookup_insert_ne.
Qed.

Section Facts.

Variable backend : nat -> option json_object.
Variable rand : nat -> nat.

Abbreviation run_game_step := (run_game_step backend rand).
Abbreviation script := (script backend rand).
Abbreviation rerun := (rerun backend rand).

Lemma shuffle_from_spec {A} (i : nat) (x : list A) (w : World) :
  exists x', shuffle_from rand i x w
             = (Ok x', mkWorld (session_state w) (api_calls w)
                         (rng_draws w + i)%nat (page w))
             /\ x' ≡ₚ x.
Proof.
  revert x w. induction i as [|i IH]; intros x w.
  - exists x. split; [|done]. cbn. destruct w; cbn. by rewrite Nat.add_0_r.
  - cbn [shuffle_from]. unfold bind, randbelow.
    destruct (IH (swap (S i) (rand (rng_draws w) `mod` S (S i))%nat x)
       (mkWorld (session_state w) (api_calls w) (S (rng_draws w)) (page w)))
      as (x' & -> & Hp).
    exists x'. cbn. split; [do 2 f_equal; lia|]. by rewrite Hp, swap_Permutation.
Qed.

Lemma random_shuffle_spec {A} (x : list A) (w : World) :
  exists x', random_shuffle rand x w
             = (Ok x', mkWorld (session_state w) (api_calls w)
                         (rng_draws w + (length x - 1))%nat (page w))
             /\ x' ≡ₚ x.
Proof. apply shuffle_from_spec. Qed.

(** One step of symbolic execution: resolve the next test of the script,
    in program order. *)
Ltac exec_step :=
  match goal with
  | |- context [random_shuffle rand ?x ?w] =>
      let l := fresh "choices" in
      let Hp := fresh "Hperm" in
      destruct (random_shuffle_spec x w) as (l & -> & Hp)
  | |- context [match backend ?n with _ => _ end] =>
      destruct (backend n) eqn:?
  | |- context [match json_get ?k ?d with _ => _ end] =>
      destruct (json_get k d) eqn:?
  | |- context [match topic_info ?s with _ => _ end] =>
      destruct (topic_info s) eqn:?
  | |- context [<[?k:=?v]> ?m !! ?k] => rewrite (lookup_insert_eq m k v)
  | |- context [<[?k:=?v]> ?m !! ?k'] =>
      rewrite (lookup_insert_ne m k k' v) by done
  | |- context [match ?d !! ?k with _ => _ end] =>
      destruct (d !! k) eqn:?
  | |- context [if bool_decide ?P then _ else _] =>
      destruct (bool_decide P) eqn:?
  | |- context [if py_eqb ?a ?b then _ else _] =>
      destruct (py_eqb a b) eqn:?
  end;
  exec_proj.

Ltac exec := exec_unfold; exec_proj; repeat exec_step.

(** The three quiz stages. *)
Lemma quiz_stage_cases (s : Z) : 1 <= s <= 3 -> s = 1 \/ s = 2 \/ s = 3.
Proof. lia. Qed.

(** *** A filled quiz stage is only rendered *)

Lemma filled_stage_frame ui w r w' :
  1 <= step (session_state w) <= 3 ->
  stage_filled (step (session_state w)) (session_state w) = true ->
  run_game_step ui w = (r, w') ->
  session_state w' = session_state w
  /\ api_calls w' = api_calls w
  /\ rng_draws w' = rng_draws w.
Proof.
  intros Hs. unfold stage_filled, stage_memo.
  destruct (quiz_stage_cases _ Hs) as [H|[H|H]]; rewrite H; cbn [Z.eqb Pos.eqb];
    intros Hf%negb_true_iff; enter_stage H; rewrite Hf.
  all: exec; by intros [= <- <-].
Qed.


(** *** An empty quiz stage is generated, or the run raises and changes
    nothing *)

Lemma has_key_insert k k' v (d : gmap string pyval) :
  has_key k (<[k':=v]> d) = bool_decide (k' = k) || has_key k d.
Proof.
  unfold has_key. rewrite lookup_insert. case_decide as Hk.
  - rewrite (bool_decide_eq_true_2 _ Hk). apply bool_decide_eq_true_2. eauto.
  - by rewrite (bool_decide_eq_false_2 _ Hk).
Qed.

Lemma quiz_generation ui w r w' :
  let s := step (session_state w) in
  1 <= s <= 3 ->
  stage_filled s (session_state w) = false ->
  run_game_step ui w = (r, w') ->
  (exists e, r = Raise e /\ session_state w' = session_state w)
  \/ (r = Ok tt
      /\ step (session_state w') = s
      /\ topic_info (session_state w') = topic_info (session_state w)
      /\ (forall s', s' <> s ->
            stage_memo s' (session_state w') = stage_memo s' (session_state w))
      /\ quiz_ready s (session_state w') = true
      /\ exists c l d k,
           stage_memo s (session_state w') !! "correct_answer" = Some (VStr c)
           /\ stage_memo s (session_state w') !! "answer_choices" = Some (VList l)
           /\ l ≡ₚ values d ++ [c]
           /\ backend k = Some d
           /\ api_calls w' !! k = Some (prompt_wrong_answers, c)
           /\ (length (api_calls w) <= k)%nat).
Proof.
  intros s Hs. subst s. unfold stage_filled, stage_memo at 1.
  destruct (quiz_stage_cases _ Hs) as [H|[H|H]]; rewrite H; cbn [Z.eqb Pos.eqb];
    intros Hf%negb_false_iff; enter_stage H; rewrite Hf.
  all: exec; intros [= <- <-]; exec_proj;
    first [ by left; eauto | right ].
  all: split; [done|]; split; [done|]; split; [done|]; split.
  all: try (intros s' Hs'; unfold stage_memo; exec_proj; repeat case_match; (done || lia)).
  all: split.
  all: try (unfold quiz_ready, stage_memo, display_key; exec_proj; cbn [Z.eqb Pos.eqb];
       rewrite !has_key_insert;
       match goal with Ht : topic_info _ = Some _, Hj : json_get "topic" _ = Some _ |- _ =>
         rewrite Ht, Hj end; done).
  all: unfold stage_memo; exec_proj; cbn [Z.eqb Pos.eqb]; do 4 eexists.
  all: split; [by simplify_map_eq|]; split; [by simplify_map_eq|].
  all: split; [eassumption|]; split; [eassumption|].
  all: split; [by apply list_lookup_middle|]; rewrite !length_app; lia.
Qed.


(** *** Stage 0 *)

Lemma topic_stage ui w r w' :
  step (session_state w) = 0 ->
  run_game_step ui w = (r, w') ->
  hangul_quiz_data (session_state w') = hangul_quiz_data (session_state w)
  /\ english_quiz_data (session_state w') = english_quiz_data (session_state w)
  /\ fill_blank_data (session_state w') = fill_blank_data (session_state w)
  /\ rng_draws w' = rng_draws w
  /\ (topic_info (session_state w) = None ->
        api_calls w' = (api_calls w
                        ++ [(prompt_random_topic, "Come up with a random noun or phrase.")])%list
        /\ topic_info (session_state w') = backend (length (api_calls w)))
  /\ (topic_info (session_state w) <> None ->
        api_calls w' = api_calls w
        /\ topic_info (session_state w') = topic_info (session_state w))
  /\ (step (session_state w') = 0
      \/ step (session_state w') = 1
         /\ clicked ui = Some "Next: Pronunciation from Hangul" /\ r = Ok tt)
  /\ (r = Ok tt -> topic_info (session_state w') <> None)
  /\ (r = Raise APIError -> topic_info (session_state w') = None)
  /\ r <> Halt
  /\ exists els, page w' = (page w ++ els)%list
                 /\ existsb is_callback_button els = false.
Proof.
  intros H. enter_stage H.
  exec; intros [= <- <-]; exec_proj.
  all: rewrite <- ?app_assoc.
  all: repeat match goal with |- _ /\ _ => split end.
  all: try done.
  all: try (by eexists).
  all: try by left.
  all: try (intros ?; congruence).
  all: try (intros _; split; congruence).
  all: right; split; [lia|]; split; [|done].
  all: match goal with
       | Hb : bool_decide _ = true |- _ => exact (bool_decide_eq_true_1 _ Hb)
       end.
Qed.


(** *** Stage 4 *)

Lemma final_stage ui w r w' :
  step (session_state w) = 4 ->
  run_game_step ui w = (r, w') ->
  api_calls w' = api_calls w
  /\ rng_draws w' = rng_draws w
  /\ session_state w'
     = (if bool_decide (clicked ui = Some "New Topic!") then fresh_session
        else session_state w)
  /\ r = (if bool_decide (clicked ui = Some "End Game") then Halt else Ok tt)
  /\ exists els, page w' = (page w ++ els)%list
                 /\ existsb is_callback_button els = false
                 /\ button_on_page "New Topic!" els = Some None.
Proof.
  intros H. enter_stage H.
  exec; intros [= <- <-]; exec_proj; rewrite <- ?app_assoc.
  all: repeat match goal with |- _ /\ _ => split end; try done.
  all: try by eexists.
  all: try by destruct (session_state w); cbn in *; subst.
  all: repeat match goal with
         | Hb : bool_decide _ = true |- _ => apply bool_decide_eq_true_1 in Hb
         end; congruence.
Qed.

(** *** Any other value of [step]: nothing is rendered, nothing changes *)

Lemma off_stage ui w :
  ~ 0 <= step (session_state w) <= 4 ->
  run_game_step ui w = (Ok tt, w).
Proof.
  intros H. unfold run_game_step. unfold bind, get_session.
  repeat (case_match; [lia|]). done.
Qed.


(** *** The answer check *)

Lemma has_key_true k (d : gmap string pyval) :
  has_key k d = true -> exists v, d !! k = Some v.
Proof. unfold has_key. intros [v Hv]%bool_decide_eq_true_1. eauto. Qed.



(** *** Consequences for a whole run *)

Lemma session_eta (σ σ' : SessionState) :
  topic_info σ' = topic_info σ ->
  step σ' = step σ ->
  hangul_quiz_data σ' = hangul_quiz_data σ ->
  english_quiz_data σ' = english_quiz_data σ ->
  fill_blank_data σ' = fill_blank_data σ ->
  σ' = σ.
Proof. destruct σ, σ'; cbn; congruence. Qed.

(** What a run at a quiz stage can change: at most the stage's own slot,
    and only by filling it when it was empty. *)
Lemma quiz_stage_frame ui w r w' :
  let s := step (session_state w) in
  1 <= s <= 3 ->
  run_game_step ui w = (r, w') ->
  step (session_state w') = s
  /\ topic_info (session_state w') = topic_info (session_state w)
  /\ (forall s', s' <> s ->
        stage_memo s' (session_state w') = stage_memo s' (session_state w))
  /\ (stage_filled s (session_state w) = true ->
        session_state w' = session_state w)
  /\ (forall e, r = Raise e -> session_state w' = session_state w).
Proof.
  intros s Hs Hrun. subst s.
  destruct (stage_filled (step (session_state w)) (session_state w)) eqn:Hf.
  - destruct (filled_stage_frame _ _ _ _ Hs Hf Hrun) as (-> & _). done.
  - destruct (quiz_generation _ _ _ _ Hs Hf Hrun)
      as [(e & -> & ->) | (-> & H1 & H2 & H3 & _)]; [done|].
    repeat split; try done.
Qed.

(** A run that raises at a quiz stage, or out of the backend call of
    stage 0, leaves the session as it found it. *)
Lemma raise_frame ui w e w' :
  run_game_step ui w = (Raise e, w') ->
  1 <= step (session_state w) <= 3 \/ e = APIError ->
  session_state w' = session_state w.
Proof.
  intros Hrun Hcase.
  destruct (decide (1 <= step (session_state w) <= 3)) as [Hs|Hs].
  { by apply (quiz_stage_frame _ _ _ _ Hs Hrun) with e. }
  destruct Hcase as [? | ->]; [done|].
  destruct (decide (step (session_state w) = 0)) as [H0|H0].
  - destruct (topic_stage _ _ _ _ H0 Hrun)
      as (Hh & He & Hb & _ & Hnone & Hsome & Hstep & _ & Hapi & _).
    specialize (Hapi eq_refl).
    apply session_eta; try done.
    + destruct (topic_info (session_state w)) eqn:Ht; [|done].
      destruct Hsome as [_ Hsome]; congruence.
    + destruct Hstep as [-> | (_ & _ & ?)]; done.
  - destruct (decide (step (session_state w) = 4)) as [H4|H4].
    + destruct (final_stage _ _ _ _ H4 Hrun) as (_ & _ & _ & Hr & _).
      by case_bool_decide.
    + rewrite off_stage in Hrun by lia. done.
Qed.

(** A generated slot stays as it is until the game is reset. *)
Lemma memo_stable ui w r w' s :
  1 <= s <= 3 ->
  stage_filled s (session_state w) = true ->
  run_game_step ui w = (r, w') ->
  stage_memo s (session_state w') = stage_memo s (session_state w)
  \/ session_state w' = fresh_session.
Proof.
  intros Hs Hf Hrun.
  destruct (decide (1 <= step (session_state w) <= 3)) as [Hq|Hq].
  - left. destruct (quiz_stage_frame _ _ _ _ Hq Hrun) as (_ & _ & Hoth & Hsame & _).
    destruct (decide (s = step (session_state w))) as [->|Hne]; [|by apply Hoth].
    by rewrite Hsame.
  - destruct (decide (step (session_state w) = 0)) as [H0|H0].
    + left. destruct (topic_stage _ _ _ _ H0 Hrun) as (Hh & He & Hb & _).
      unfold stage_memo. by rewrite Hh, He, Hb.
    + destruct (decide (step (session_state w) = 4)) as [H4|H4].
      * destruct (final_stage _ _ _ _ H4 Hrun) as (_ & _ & -> & _).
        case_bool_decide; [by right|by left].
      * rewrite off_stage in Hrun by lia. left. congruence.
Qed.

(** Entering a stage whose content is there makes no request, draws no
    random number and changes nothing, unless the user advances. *)
Lemma filled_entry_noop ui w r w' :
  let s := step (session_state w) in
  0 <= s <= 3 ->
  stage_filled s (session_state w) = true ->
  clicked ui <> Some "Next: Pronunciation from Hangul" ->
  run_game_step ui w = (r, w') ->
  session_state w' = session_state w
  /\ api_calls w' = api_calls w
  /\ rng_draws w' = rng_draws w.
Proof.
  intros s Hs Hf Hclick Hrun. subst s.
  destruct (decide (step (session_state w) = 0)) as [H0|H0].
  - rewrite H0 in Hf. apply bool_decide_eq_true_1 in Hf.
    destruct (topic_stage _ _ _ _ H0 Hrun)
      as (Hh & He & Hb & Hrng & _ & Hsome & Hstep & _).
    destruct (Hsome Hf) as [Hapi Ht].
    split; [|done]. apply session_eta; try done.
    destruct Hstep as [-> | (_ & ? & _)]; done.
  - assert (1 <= step (session_state w) <= 3) as Hq by lia.
    by apply (filled_stage_frame _ _ _ _ Hq Hf Hrun).
Qed.

Lemma entries_filled_noop uis w :
  let s := step (session_state w) in
  0 <= s <= 3 ->
  stage_filled s (session_state w) = true ->
  Forall (λ ui, clicked ui <> Some "Next: Pronunciation from Hangul") uis ->
  session_state (entries backend rand uis w) = session_state w
  /\ api_calls (entries backend rand uis w) = api_calls w
  /\ rng_draws (entries backend rand uis w) = rng_draws w.
Proof.
  intros s Hs Hf Huis. subst s. revert w Hs Hf.
  induction Huis as [|ui uis Hui _ IH]; intros w Hs Hf; [done|].
  cbn [entries].
  destruct (run_game_step ui w) as [r w1] eqn:Hrun. cbn [snd].
  destruct (filled_entry_noop _ _ _ _ Hs Hf Hui Hrun) as (Hσ & Hapi & Hrng).
  rewrite <- Hσ, <- Hapi, <- Hrng. apply IH; by rewrite Hσ.
Qed.

(** At a quiz stage the script never advances by itself, so the inputs
    need no restriction there. *)
Lemma quiz_entries_noop uis w :
  let s := step (session_state w) in
  1 <= s <= 3 ->
  stage_filled s (session_state w) = true ->
  session_state (entries backend rand uis w) = session_state w
  /\ api_calls (entries backend rand uis w) = api_calls w
  /\ rng_draws (entries backend rand uis w) = rng_draws w.
Proof.
  intros s Hs Hf. subst s. revert w Hs Hf.
  induction uis as [|ui uis IH]; intros w Hs Hf; [done|].
  cbn [entries].
  destruct (run_game_step ui w) as [r w1] eqn:Hrun. cbn [snd].
  destruct (filled_stage_frame _ _ _ _ Hs Hf Hrun) as (Hσ & Hapi & Hrng).
  rewrite <- Hσ, <- Hapi, <- Hrng. apply IH; by rewrite Hσ.
Qed.


(** *** The stage index along a session *)

Lemma button_on_page_callback l pg cb :
  button_on_page l pg = Some (Some cb) -> existsb is_callback_button pg = true.
Proof.
  induction pg as [|e pg IH]; [done|].
  destruct e as [| | | | | | |l' [cb'|]|]; cbn; try done.
  destruct (String.eqb l l'); [done|]. exact IH.
Qed.

Lemma script_unfold ui w :
  script ui w
  = run_game_step ui (mkWorld (session_state w) (api_calls w) (rng_draws w)
                              (page w ++ [ETitle "Korean Learning Game"])).
Proof. reflexivity. Qed.

(** Pressing a button without callback just runs the script again. *)
Lemma rerun_no_callback ui w l :
  clicked ui = Some l ->
  button_on_page l (page w) = Some None ->
  rerun ui w
  = run_game_step ui (mkWorld (session_state w) (api_calls w) (rng_draws w)
                              [ETitle "Korean Learning Game"]).
Proof. intros Hl Hb. unfold rerun. rewrite Hl, Hb. reflexivity. Qed.

(** The script moves the stage index forward, if at all, unless it resets
    the game. *)
Lemma run_step_monotone ui w r w' :
  run_game_step ui w = (r, w') ->
  step (session_state w) <= step (session_state w')
  \/ clicked ui = Some "New Topic!" /\ session_state w' = fresh_session.
Proof.
  intros Hrun.
  destruct (decide (1 <= step (session_state w) <= 3)) as [Hq|Hq].
  { left. destruct (quiz_stage_frame _ _ _ _ Hq Hrun) as (-> & _). done. }
  destruct (decide (step (session_state w) = 0)) as [H0|H0].
  { left. destruct (topic_stage _ _ _ _ H0 Hrun)
      as (_ & _ & _ & _ & _ & _ & Hstep & _).
    destruct Hstep as [-> | (-> & _)]; lia. }
  destruct (decide (step (session_state w) = 4)) as [H4|H4].
  - destruct (final_stage _ _ _ _ H4 Hrun) as (_ & _ & -> & _).
    case_bool_decide; [by right|by left].
  - rewrite off_stage in Hrun by lia. left. by simplify_eq.
Qed.

Lemma script_consistent ui w :
  0 <= step (session_state w) <= 4 ->
  page w = [] ->
  page_consistent (snd (script ui w)).
Proof.
  intros Hs Hpage. rewrite script_unfold.
  set (w1 := mkWorld _ _ _ _).
  destruct (run_game_step ui w1) as [r w'] eqn:Hrun. cbn [snd].
  change (step (session_state w)) with (step (session_state w1)) in Hs.
  assert (Hp1 : existsb is_callback_button (page w1) = false)
    by (subst w1; cbn [page]; by rewrite Hpage).
  unfold page_consistent.
  destruct (decide (1 <= step (session_state w1) <= 3)) as [Hq|Hq].
  { destruct (quiz_stage_frame _ _ _ _ Hq Hrun) as (-> & _). lia. }
  destruct (decide (step (session_state w1) = 0)) as [H0|H0].
  - destruct (topic_stage _ _ _ _ H0 Hrun)
      as (_ & _ & _ & _ & _ & _ & Hstep & _ & _ & _ & els & -> & Hels).
    rewrite existsb_app, Hp1, Hels.
    split; [|done]. destruct Hstep as [-> | (-> & _)]; lia.
  - assert (H4 : step (session_state w1) = 4) by lia.
    destruct (final_stage _ _ _ _ H4 Hrun)
      as (_ & _ & -> & _ & els & -> & Hels & _).
    rewrite existsb_app, Hp1, Hels.
    split; [|done]. case_bool_decide; [cbn; lia|lia].
Qed.

Lemma rerun_consistent ui w :
  page_consistent w -> page_consistent (snd (rerun ui w)).
Proof.
  intros [Hs Hcb]. unfold rerun. unfold bind at 1.
  assert (Hcall : forall m : M unit,
            (m = next_step /\ 1 <= step (session_state w) <= 3) \/ m = ret tt ->
            page_consistent
              (snd (let (o, w1) := m w in
                    match o with
                    | Ok _ => (clear_page;; script ui) w1
                    | Raise e => (Raise e, w1)
                    | Halt => (Halt, w1)
                    end))).
  { intros m [[-> Hq] | ->]; cbn [next_step ret modify_session];
      unfold bind at 1; cbn [clear_page];
      apply script_consistent; cbn; (lia || done). }
  apply Hcall.
  destruct (clicked ui) as [l|]; [|by right].
  destruct (button_on_page l (page w)) as [[[]|]|] eqn:Hb; [|by right..].
  left. split; [done|]. eauto using button_on_page_callback.
Qed.

Lemma reachable_consistent w : reachable backend rand w -> page_consistent w.
Proof.
  induction 1 as [ui _|ui w _ IH _].
  - by apply script_consistent.
  - by apply rerun_consistent.
Qed.

(** One interaction moves the stage index forward, if at all, unless the
    user asked for a new topic. *)
Lemma rerun_monotone ui w :
  step (session_state w) <= step (session_state (snd (rerun ui w)))
  \/ clicked ui = Some "New Topic!".
Proof.
  unfold rerun. unfold bind at 1.
  assert (Hcall : forall m : M unit,
            m = next_step \/ m = ret tt ->
            step (session_state w)
            <= step (session_state
                 (snd (let (o, w1) := m w in
                       match o with
                       | Ok _ => (clear_page;; script ui) w1
                       | Raise e => (Raise e, w1)
                       | Halt => (Halt, w1)
                       end)))
            \/ clicked ui = Some "New Topic!").
  { intros m Hm.
    assert (exists w1, m w = (Ok tt, w1)
                       /\ step (session_state w) <= step (session_state w1))
      as (w1 & -> & Hle).
    { destruct Hm as [-> | ->]; eexists; (split; [reflexivity|]); cbn; lia. }
    unfold bind at 1; cbn [clear_page]. rewrite script_unfold.
    set (w2 := mkWorld _ _ _ _).
    destruct (run_game_step ui w2) as [r w'] eqn:Hrun. cbn [snd].
    destruct (run_step_monotone _ _ _ _ Hrun) as [Hle' | [? _]]; [|by right].
    left. subst w2. cbn in Hle'. lia. }
  apply Hcall.
  destruct (clicked ui) as [l|]; [|by right].
  destruct (button_on_page l (page w)) as [[[]|]|]; [by left|by right..].
Qed.


(** *** Counting the correct answer *)

Lemma occurrences_Permutation c l l' :
  l ≡ₚ l' -> occurrences c l = occurrences c l'.
Proof. unfold occurrences. by intros ->. Qed.

Lemma occurrences_app c l l' :
  occurrences c (l ++ l') = (occurrences c l + occurrences c l')%nat.
Proof. unfold occurrences. by rewrite filter_app, length_app. Qed.

Lemma occurrences_absent c l : c ∉ l -> occurrences c l = 0%nat.
Proof.
  unfold occurrences. induction l as [|x l IH]; [done|].
  intros [Hx Hl]%not_elem_of_cons.
  rewrite filter_cons_False by congruence. auto.
Qed.

Lemma occurrences_self c : occurrences c [c] = 1%nat.
Proof. unfold occurrences. by rewrite filter_cons_True. Qed.

Lemma quiz_ready_filled s σ :
  1 <= s <= 3 -> quiz_ready s σ = true -> stage_filled s σ = true.
Proof.
  intros Hs Hr. unfold quiz_ready in Hr.
  repeat (apply andb_prop in Hr as [Hr ?]).
  match goal with
  | Hk : has_key "answer_choices" _ = true |- _ =>
      apply has_key_true in Hk as [v Hv]
  end.
  unfold stage_filled. replace (s =? 0) with false by lia.
  apply negb_true_iff, bool_decide_eq_false_2. intros He.
  by rewrite He, lookup_empty in Hv.
Qed.

(** *** What a successful generation stores *)

(** Bring the indices of the requests of a run to the form [n + k]. *)
Ltac request_indices :=
  repeat match goal with
    | Hb : context [length (_ ++ _)] |- _ =>
        rewrite length_app in Hb; cbn [length] in Hb
    end;
  repeat match goal with
    | Hb : context [(_ + 1 + 1)%nat] |- _ =>
        rewrite <- Nat.add_assoc in Hb; cbn [Nat.add] in Hb
    end.

Lemma topic_generation ui w w' :
  step (session_state w) = 0 ->
  topic_info (session_state w) = None ->
  run_game_step ui w = (Ok tt, w') ->
  topic_provider_result backend w w'.
Proof.
  intros H0 Hnone Hrun.
  destruct (topic_stage _ _ _ _ H0 Hrun)
    as (_ & _ & _ & _ & Hreq & _ & _ & Hsome & _).
  destruct (Hreq Hnone) as [Hapi Hreply].
  destruct (topic_info (session_state w')) as [t|] eqn:Ht; [|by destruct Hsome].
  exists t. by rewrite <- Hreply.
Qed.

Lemma hangul_generation ui w w' :
  step (session_state w) = 1 ->
  hangul_quiz_data (session_state w) = ∅ ->
  run_game_step ui w = (Ok tt, w') ->
  hangul_provider_result backend w w'.
Proof.
  intros H Hempty. unfold hangul_provider_result. enter_stage H.
  unfold dict_is_empty. rewrite Hempty, bool_decide_eq_true_2 by done.
  exec; intros Heq; simplify_eq; exec_proj; rewrite <- ?app_assoc; cbn [app].
  all: request_indices.
  all: eexists _, _, _, _, _, _, _, _, _.
  all: repeat match goal with |- _ /\ _ => split end; try eassumption; try done.
  all: rewrite length_app; cbn; lia.
Qed.

Lemma english_generation ui w w' :
  step (session_state w) = 2 ->
  english_quiz_data (session_state w) = ∅ ->
  run_game_step ui w = (Ok tt, w') ->
  english_provider_result backend w w'.
Proof.
  intros H Hempty. unfold english_provider_result. enter_stage H.
  unfold dict_is_empty. rewrite Hempty, bool_decide_eq_true_2 by done.
  exec; intros Heq; simplify_eq; exec_proj; rewrite <- ?app_assoc; cbn [app].
  all: request_indices.
  all: eexists _, _, _, _, _, _, _.
  all: repeat match goal with |- _ /\ _ => split end; try eassumption; try done.
  all: rewrite length_app; cbn; lia.
Qed.

Lemma fill_blank_generation ui w w' :
  step (session_state w) = 3 ->
  fill_blank_data (session_state w) = ∅ ->
  run_game_step ui w = (Ok tt, w') ->
  fill_blank_provider_result backend w w'.
Proof.
  intros H Hempty. unfold fill_blank_provider_result. enter_stage H.
  unfold dict_is_empty. rewrite Hempty, bool_decide_eq_true_2 by done.
  exec; intros Heq; simplify_eq; exec_proj; rewrite <- ?app_assoc; cbn [app].
  all: request_indices.
  all: eexists _, _, _, _, _, _, _, _, _, _.
  all: repeat match goal with |- _ /\ _ => split end; try eassumption; try done.
  all: rewrite length_app; cbn; lia.
Qed.

(** The first entry of a stage stores what the stage's provider built. *)
Lemma generation_result ui w w' :
  let s := step (session_state w) in
  0 <= s <= 3 ->
  stage_filled s (session_state w) = false ->
  run_game_step ui w = (Ok tt, w') ->
  provider_result backend s w w'.
Proof.
  intros s Hs. subst s. unfold provider_result, stage_filled, stage_memo.
  assert (Hcases : step (session_state w) = 0 \/ step (session_state w) = 1
                   \/ step (session_state w) = 2 \/ step (session_state w) = 3)
    by lia.
  destruct Hcases as [H|[H|[H|H]]]; rewrite H; cbn [Z.eqb Pos.eqb].
  - intros Hf%bool_decide_eq_false_1 Hrun.
    apply (topic_generation ui); [done| |done].
    destruct (topic_info (session_state w)); [|done]. by destruct Hf.
  - intros Hf%negb_false_iff%bool_decide_eq_true_1. by apply hangul_generation.
  - intros Hf%negb_false_iff%bool_decide_eq_true_1. by apply english_generation.
  - intros Hf%negb_false_iff%bool_decide_eq_true_1. by apply fill_blank_generation.
Qed.

(** * The claims *)

(** C1 (amended). At every quiz stage, a successful stage entry that
    generates the content stores the correct answer and a list of answer
    choices; when the reply to the distractor request holds exactly three
    values, none of them the correct answer, that list has length 4 and
    contains the correct answer exactly once.  In every case the list is
    fixed once stored: however often the stage is entered again, the stored
    list is the same and no random number is drawn. *)
Theorem choices_shape_stable ui w :
  let s := step (session_state w) in
  let w' := snd (run_game_step ui w) in
  1 <= s <= 3 ->
  stage_filled s (session_state w) = false ->
  fst (run_game_step ui w) = Ok tt ->
  exists c l d k,
    stage_memo s (session_state w') !! "correct_answer" = Some (VStr c)
    /\ stage_memo s (session_state w') !! "answer_choices" = Some (VList l)
    /\ backend k = Some d
    /\ api_calls w' !! k = Some (prompt_wrong_answers, c)
    /\ (length (values d) = 3%nat -> c ∉ values d ->
        length l = 4%nat /\ occurrences c l = 1%nat)
    /\ forall uis,
         stage_memo s (session_state (entries backend rand uis w'))
           !! "answer_choices" = Some (VList l)
         /\ rng_draws (entries backend rand uis w') = rng_draws w'.
Proof.
  intros s w' Hs Hf Hok. subst s w'.
  destruct (run_game_step ui w) as [r w'] eqn:Hrun. cbn [fst snd] in *.
  destruct (quiz_generation _ _ _ _ Hs Hf Hrun)
    as [(e & -> & _) | (_ & Hstep & _ & _ & Hready & c & l & d & k & Hc & Hl & Hp & Hd & Hk & _)];
    [done|].
  assert (Hs' : 1 <= step (session_state w') <= 3) by lia.
  assert (Hf' : stage_filled (step (session_state w')) (session_state w') = true)
    by (rewrite Hstep; by apply quiz_ready_filled).
  exists c, l, d, k. repeat split; try done.
  - rewrite Hp, length_app. cbn. lia.
  - rewrite (occurrences_Permutation _ _ _ Hp), occurrences_app,
      occurrences_absent, occurrences_self by done. done.
  - by destruct (quiz_entries_noop uis w' Hs' Hf') as (-> & _).
  - by destruct (quiz_entries_noop uis w' Hs' Hf') as (_ & _ & ->).
Qed.

(** C2. For every stage with content, a successful entry leaves the stage
    filled.  It generates only when the stage was not filled, and then
    the slot holds the result of the stage's provider: the topic reply
    at stage 0; at a quiz stage the fields taken from the backend's
    replies to the provider's requests, with the answer choices a
    permutation of the distractors and the correct answer.  When the
    stage was filled it sends no request and changes nothing.  From then
    on, any number of further entries of the same stage without an
    advance send no request, draw no random number and leave the session
    as it is. *)
Theorem stage_entry_once ui w :
  let s := step (session_state w) in
  let w' := snd (run_game_step ui w) in
  0 <= s <= 3 ->
  fst (run_game_step ui w) = Ok tt ->
  step (session_state w') = s ->
  stage_filled s (session_state w') = true
  /\ (stage_filled s (session_state w) = false ->
      provider_result backend s w w')
  /\ (stage_filled s (session_state w) = true ->
      session_state w' = session_state w /\ api_calls w' = api_calls w)
  /\ (s = 0 -> topic_info (session_state w) = None ->
      topic_info (session_state w') = backend (length (api_calls w)))
  /\ forall uis,
       Forall (λ ui', clicked ui' <> Some "Next: Pronunciation from Hangul") uis ->
       session_state (entries backend rand uis w') = session_state w'
       /\ api_calls (entries backend rand uis w') = api_calls w'
       /\ rng_draws (entries backend rand uis w') = rng_draws w'.
Proof.
  intros s w' Hs Hok Hstep. subst s w'.
  destruct (run_game_step ui w) as [r w'] eqn:Hrun. cbn [fst snd] in *. subst r.
  assert (Hfilled : stage_filled (step (session_state w)) (session_state w') = true).
  { destruct (decide (step (session_state w) = 0)) as [H0|H0].
    - rewrite H0. apply bool_decide_eq_true_2.
      by apply (topic_stage _ _ _ _ H0 Hrun).
    - assert (1 <= step (session_state w) <= 3) as Hq by lia.
      destruct (stage_filled (step (session_state w)) (session_state w)) eqn:Hf.
      + by destruct (filled_stage_frame _ _ _ _ Hq Hf Hrun) as (-> & _).
      + destruct (quiz_generation _ _ _ _ Hq Hf Hrun)
          as [(e & ? & _) | (_ & _ & _ & _ & Hready & _)]; [done|].
        by apply quiz_ready_filled. }
  split; [done|]. split; [|split; [|split]].
  - intros Hf. by apply (generation_result ui).
  - intros Hf.
    destruct (decide (step (session_state w) = 0)) as [H0|H0].
    + rewrite H0 in Hf. apply bool_decide_eq_true_1 in Hf.
      destruct (topic_stage _ _ _ _ H0 Hrun)
        as (Hh & He & Hb & _ & _ & Hsome & _).
      destruct (Hsome Hf) as [Hapi Ht].
      split; [|done]. by apply session_eta.
    + assert (1 <= step (session_state w) <= 3) as Hq by lia.
      by destruct (filled_stage_frame _ _ _ _ Hq Hf Hrun) as (-> & -> & _).
  - intros H0 Hnone. by apply (topic_stage _ _ _ _ H0 Hrun).
  - intros uis Huis. apply entries_filled_noop; [lia|by rewrite Hstep|done].
Qed.



(** C4 (amended). Whatever mapping the backend returns for the distractor
    request, with fewer than three values or with duplicates just as well,
    the builder does not fail: it returns the values of the mapping as they
    are, one per key, in order, neither padded nor deduplicated. *)
Theorem wrong_answers_unchecked correct_answer w d :
  backend (length (api_calls w)) = Some d ->
  fst (create_wrong_answers backend correct_answer w) = Ok (values d)
  /\ length (values d) = length d
  /\ forall i, values d !! i = snd <$> d !! i.
Proof.
  intros Hd. unfold create_wrong_answers, bind, get_json_response, ret.
  rewrite Hd. cbn [fst]. unfold values.
  split; [done|]. split; [apply length_map|]. intros i. apply list_lookup_fmap.
Qed.

(** C5 (amended). In every session, along any sequence of interactions in
    which the user does not ask for a new topic, the stage index never
    decreases, and it always stays within [0,4].  Stage 4 is the ceiling
    because no control that advances is on the page there. *)
Theorem stage_index_monotone_bounded w uis w' :
  reachable backend rand w ->
  session_run backend rand w uis w' ->
  Forall (λ ui, clicked ui <> Some "New Topic!") uis ->
  0 <= step (session_state w)
  /\ step (session_state w) <= step (session_state w')
  /\ step (session_state w') <= 4.
Proof.
  intros Hreach%reachable_consistent Hrun Huis.
  enough (step (session_state w) <= step (session_state w')
          /\ page_consistent w') as [Hle [Hb _]].
  { destruct Hreach as [? _]. lia. }
  induction Hrun as [w|ui uis w w' _ _ IH]; [split; [lia|done]|].
  apply Forall_cons in Huis as [Hui Huis].
  destruct (IH (rerun_consistent _ _ Hreach) Huis) as [Hle Hc].
  split; [|done].
  destruct (rerun_monotone ui w) as [?|?]; [lia|done].
Qed.

(** C6 (amended). When a run raises at a quiz stage (for instance with
    KeyError because the reply lacks [final_sequence]), or raises at stage
    0 because the backend call itself failed, the session state is left
    exactly as it was: the stage's slot is as empty as before and the
    entry can be tried again. *)
Theorem failed_entry_keeps_session ui w e :
  let s := step (session_state w) in
  let w' := snd (run_game_step ui w) in
  fst (run_game_step ui w) = Raise e ->
  1 <= s <= 3 \/ e = APIError ->
  session_state w' = session_state w
  /\ stage_filled s (session_state w') = stage_filled s (session_state w).
Proof.
  intros s w' Hr Hcase. subst s w'.
  destruct (run_game_step ui w) as [r w'] eqn:Hrun. cbn [fst snd] in *. subst r.
  by rewrite (raise_frame _ _ _ _ Hrun Hcase).
Qed.

(** C7. [reset_game] sets the stage to 0 and empties the topic and the
    three quiz slots; the next entry of stage 0 sends the topic request to
    the backend again and stores its reply, whatever had been memoized
    before. *)
Theorem reset_game_clears_all ui w :
  let w0 := snd (reset_game w) in
  let w' := snd (run_game_step ui w0) in
  fst (reset_game w) = Ok tt
  /\ session_state w0 = fresh_session
  /\ api_calls w0 = api_calls w
  /\ api_calls w' = (api_calls w
        ++ [(prompt_random_topic, "Come up with a random noun or phrase.")])%list
  /\ topic_info (session_state w') = backend (length (api_calls w)).
Proof.
  intros w0 w'. split; [done|]. split; [done|]. split; [done|].
  subst w'. destruct (run_game_step ui w0) as [r w'] eqn:Hrun. cbn [snd].
  assert (H0 : step (session_state w0) = 0) by done.
  destruct (topic_stage _ _ _ _ H0 Hrun) as (_ & _ & _ & _ & Hnone & _).
  by apply Hnone.
Qed.

(** C8 (amended). Pressing "End Game" at stage 4 stops the current run of
    the script after the farewell and changes nothing in the session: the
    session is not marked as ended.  The "New Topic!" button is still on
    the page, and pressing it afterwards succeeds and resets the game. *)
Theorem end_game_halts_run_only ui w :
  let w' := snd (run_game_step ui w) in
  step (session_state w) = 4 ->
  clicked ui = Some "End Game" ->
  page w = [] ->
  fst (run_game_step ui w) = Halt
  /\ session_state w' = session_state w
  /\ api_calls w' = api_calls w
  /\ forall ui',
       clicked ui' = Some "New Topic!" ->
       enabled ui' w'
       /\ fst (rerun ui' w') = Ok tt
       /\ session_state (snd (rerun ui' w')) = fresh_session.
Proof.
  intros w' H4 Hclick Hpage. subst w'.
  destruct (run_game_step ui w) as [r w'] eqn:Hrun. cbn [fst snd].
  destruct (final_stage _ _ _ _ H4 Hrun)
    as (Hapi & _ & Hσ & -> & els & Hels & _ & Hnew).
  rewrite Hclick in Hσ |- *.
  rewrite bool_decide_eq_false_2 in Hσ by done.
  rewrite bool_decide_eq_true_2 by done.
  rewrite Hpage in Hels. cbn in Hels.
  do 3 (split; [done|]). intros ui' Hclick'.
  rewrite <- Hels in Hnew.
  rewrite (rerun_no_callback _ _ _ Hclick' Hnew).
  unfold enabled. rewrite Hclick', Hnew.
  split; [by eexists|].
  set (w1 := mkWorld _ _ _ _).
  destruct (run_game_step ui' w1) as [r1 w1'] eqn:Hrun1. cbn [fst snd].
  assert (H4' : step (session_state w1) = 4) by (subst w1; cbn; congruence).
  destruct (final_stage _ _ _ _ H4' Hrun1) as (_ & _ & -> & -> & _).
  rewrite Hclick'. by repeat case_bool_decide.
Qed.


(** C10. At every quiz stage, whenever stage content is generated
    successfully, the stored list of answer choices contains the correct
    answer, and its length is the number of values in the reply to the
    distractor request plus one, for any number of keys in that reply and
    whether or not a distractor equals the correct answer (the correct
    answer then occurs once more than among the distractors). *)
Theorem choices_contain_correct ui w :
  let s := step (session_state w) in
  let w' := snd (run_game_step ui w) in
  1 <= s <= 3 ->
  stage_filled s (session_state w) = false ->
  fst (run_game_step ui w) = Ok tt ->
  exists c l d k,
    stage_memo s (session_state w') !! "correct_answer" = Some (VStr c)
    /\ stage_memo s (session_state w') !! "answer_choices" = Some (VList l)
    /\ backend k = Some d
    /\ api_calls w' !! k = Some (prompt_wrong_answers, c)
    /\ (length (api_calls w) <= k)%nat
    /\ c ∈ l
    /\ length l = (length (values d) + 1)%nat
    /\ occurrences c l = (occurrences c (values d) + 1)%nat.
Proof.
  intros s w' Hs Hf Hok. subst s w'.
  destruct (run_game_step ui w) as [r w'] eqn:Hrun. cbn [fst snd] in *.
  destruct (quiz_generation _ _ _ _ Hs Hf Hrun)
    as [(e & -> & _) | (_ & _ & _ & _ & _ & c & l & d & k & Hc & Hl & Hp & Hd & Hk & Hle)];
    [done|].
  exists c, l, d, k. repeat split; try done.
  - rewrite Hp, elem_of_app. right. constructor.
  - by rewrite Hp, length_app.
  - by rewrite (occurrences_Permutation _ _ _ Hp), occurrences_app,
      occurrences_self.
Qed.

(** * Further facts about the script *)

(** ** Stage 0 *)

Lemma topic_stage_success ui w w' :
  step (session_state w) = 0 ->
  run_game_step ui w = (Ok tt, w') ->
  exists t topic tutorial,
    topic_info (session_state w') = Some t
    /\ json_get "topic" t = Some topic
    /\ json_get "tutorial" t = Some tutorial
    /\ page w' = (page w ++ [ESubheader "Step 1: Generate a Random Topic";
                            EWrite [VStr "**Topic:**"; VStr topic];
                            EWrite [VStr "**Tutorial:**"; VStr tutorial];
                            EButton "Next: Pronunciation from Hangul" None])%list
    /\ step (session_state w')
       = (if bool_decide (clicked ui = Some "Next: Pronunciation from Hangul")
          then 1 else 0).
Proof.
  intros H. enter_stage H.
  exec; intros Heq; simplify_eq; exec_proj; rewrite <- ?app_assoc.
  all: eexists _, _, _; repeat split; eauto; lia.
Qed.



(** ** Quiz stages *)

(** A filled quiz stage never stops the script and never fails in the
    backend. *)
Lemma filled_stage_not_halt ui w r w' :
  1 <= step (session_state w) <= 3 ->
  stage_filled (step (session_state w)) (session_state w) = true ->
  run_game_step ui w = (r, w') ->
  r <> Halt /\ r <> Raise APIError.
Proof.
  intros Hs. unfold stage_filled, stage_memo.
  destruct (quiz_stage_cases _ Hs) as [H|[H|H]]; rewrite H; cbn [Z.eqb Pos.eqb];
    intros Hf%negb_true_iff; enter_stage H; rewrite Hf.
  all: exec; by intros [= <- <-].
Qed.

(** What a run renders at a quiz stage that is ready. *)
Lemma ready_stage_page ui w r w' ca opts expl :
  let s := step (session_state w) in
  let checked := bool_decide (clicked ui = Some "Check Answer") in
  let wrong := negb (py_eqb (radio_choice ui (radio_key s) opts) ca) in
  1 <= s <= 3 ->
  quiz_ready s (session_state w) = true ->
  stage_memo s (session_state w) !! "correct_answer" = Some ca ->
  stage_memo s (session_state w) !! "answer_choices" = Some opts ->
  stage_memo s (session_state w) !! "explanation" = Some expl ->
  run_game_step ui w = (r, w') ->
  r = Ok tt
  /\ exists els,
       page w' = (page w ++ els)%list
       /\ existsb is_callback_button els = checked
       /\ revealed "**Correct Answer:**" els
          = (if checked && wrong then [ca] else [])
       /\ revealed "**Explanation:**" els
          = (if checked && wrong then [expl] else [])
       /\ (exists label, ERadio label opts (radio_key s) ∈ els).
Proof.
  intros s checked wrong Hs. subst s checked wrong.
  unfold quiz_ready, stage_memo, display_key, radio_key.
  destruct (quiz_stage_cases _ Hs) as [H|[H|H]]; rewrite H; cbn [Z.eqb Pos.eqb];
    (destruct (topic_info (session_state w)) as [t|] eqn:Ht; [|by cbn]);
    intros Hr; repeat (apply andb_prop in Hr as [Hr ?]);
    apply bool_decide_eq_true_1 in Hr as [tp Htp];
    repeat match goal with
      | Hk : has_key _ _ = true |- _ => apply has_key_true in Hk as [? Hk]
      end;
    intros Hca Hopts Hexpl; enter_stage H; rewrite Ht.
  all: assert (Hne : forall d : gmap string pyval, is_Some (d !! "answer_choices") ->
                       dict_is_empty d = false)
         by (intros d [v Hv]; apply bool_decide_eq_false_2; intros ->;
             by rewrite lookup_empty in Hv).
  all: rewrite Hne by eauto.
  all: exec_unfold; exec_proj; rewrite ?Htp; exec_proj.
  all: repeat match goal with
         | Hk : ?d !! ?k = Some _ |- context [?d !! ?k] => rewrite Hk; exec_proj
         end.
  all: simplify_eq.
  all: destruct (bool_decide (clicked ui = Some "Check Answer")); exec_proj.
  all: try (destruct (py_eqb _ _) eqn:Heq; exec_proj).
  all: intros [= <- <-]; exec_proj; rewrite <- ?app_assoc.
  all: split; [done|]; eexists; split; [reflexivity|].
  all: cbn [app]; repeat split; try (vm_compute; reflexivity).
  all: eexists; rewrite !elem_of_cons; eauto 10.
Qed.


(** ** The requests of a run *)

(** An unfilled quiz stage sends its requests one after the other and
    stops at the first failure. *)
Lemma quiz_generation_requests ui w r w' :
  let s := step (session_state w) in
  1 <= s <= 3 ->
  stage_filled s (session_state w) = false ->
  run_game_step ui w = (r, w') ->
  exists new,
    api_calls w' = (api_calls w ++ new)%list
    /\ (length new <= request_budget s)%nat
    /\ (r = Raise APIError ->
        exists req old, new = (old ++ [req])%list
                        /\ backend (length (api_calls w ++ old)) = None).
Proof.
  intros s Hs. subst s. unfold stage_filled, stage_memo at 1.
  destruct (quiz_stage_cases _ Hs) as [H|[H|H]]; rewrite H; cbn [Z.eqb Pos.eqb];
    intros Hf%negb_false_iff; enter_stage H; rewrite Hf.
  all: exec; intros [= <- <-]; exec_proj; rewrite <- ?app_assoc; cbn [app].
  all: first [ exists []; split; [by rewrite app_nil_r|]
             | eexists; split; [reflexivity|] ].
  all: (split; [cbn; lia|]); try done.
  all: intros _.
  all: repeat match goal with
         | Hb : context [((_ ++ _) ++ _)%list] |- _ =>
             rewrite <- app_assoc in Hb; cbn [app] in Hb
         end.
  all: first
    [ eexists _, []; split; [reflexivity|]; by rewrite app_nil_r
    | eexists _, [_]; split; [reflexivity|]; done
    | eexists _, [_; _]; split; [reflexivity|]; done ].
Qed.


(** X1. The script stops itself ([st.stop()]) in exactly one situation:
    at stage 4, in the run triggered by "End Game". *)
Theorem run_halts_iff_end_game ui w :
  fst (run_game_step ui w) = Halt
  <-> step (session_state w) = 4 /\ clicked ui = Some "End Game".
Proof.
  destruct (run_game_step ui w) as [r w'] eqn:Hrun. cbn [fst].
  destruct (decide (1 <= step (session_state w) <= 3)) as [Hq|Hq].
  { split; [|lia]. intros ->.
    destruct (stage_filled (step (session_state w)) (session_state w)) eqn:Hf.
    - by destruct (filled_stage_not_halt _ _ _ _ Hq Hf Hrun).
    - by destruct (quiz_generation _ _ _ _ Hq Hf Hrun) as [(e & ? & _) | (? & _)]. }
  destruct (decide (step (session_state w) = 0)) as [H0|H0].
  { split; [|lia]. intros ->.
    by destruct (topic_stage _ _ _ _ H0 Hrun)
      as (_ & _ & _ & _ & _ & _ & _ & _ & _ & ? & _). }
  destruct (decide (step (session_state w) = 4)) as [H4|H4].
  - destruct (final_stage _ _ _ _ H4 Hrun) as (_ & _ & _ & -> & _).
    case_bool_decide as Hc; [by split | split; [done | by intros [_ ?]]].
  - rewrite off_stage in Hrun by lia. simplify_eq. split; [done|lia].
Qed.

(** X2. One run sends at most as many requests as its stage needs (one
    at stage 0, three at stages 1 and 3, two at stage 2, none elsewhere),
    appended to the requests already sent, and none at all when the
    stage's content is already there.  When the run ends in a backend
    failure, the failing request is the last one sent. *)
Theorem run_request_budget ui w :
  let s := step (session_state w) in
  let w' := snd (run_game_step ui w) in
  exists new,
    api_calls w' = (api_calls w ++ new)%list
    /\ (length new <= request_budget s)%nat
    /\ (stage_filled s (session_state w) = true -> new = [])
    /\ (fst (run_game_step ui w) = Raise APIError ->
        exists req old, new = (old ++ [req])%list
                        /\ backend (length (api_calls w ++ old)) = None).
Proof.
  intros s w'. subst s w'.
  destruct (run_game_step ui w) as [r w'] eqn:Hrun. cbn [fst snd].
  destruct (decide (1 <= step (session_state w) <= 3)) as [Hq|Hq].
  { destruct (stage_filled (step (session_state w)) (session_state w)) eqn:Hf.
    - destruct (filled_stage_frame _ _ _ _ Hq Hf Hrun) as (_ & -> & _).
      destruct (filled_stage_not_halt _ _ _ _ Hq Hf Hrun) as [_ Hapi].
      exists []. rewrite app_nil_r. repeat split; [apply Nat.le_0_l|done].
    - destruct (quiz_generation_requests _ _ _ _ Hq Hf Hrun)
        as (new & -> & Hlen & Hlast).
      exists new. repeat split; done. }
  destruct (decide (step (session_state w) = 0)) as [H0|H0].
  { destruct (topic_stage _ _ _ _ H0 Hrun)
      as (_ & _ & _ & _ & Hnone & Hsome & _ & _ & Hapi & _).
    rewrite H0. unfold stage_filled. cbn [Z.eqb].
    destruct (topic_info (session_state w)) as [t|] eqn:Ht.
    - destruct Hsome as [-> Hsame]; [done|].
      exists []. rewrite app_nil_r. repeat split; [apply Nat.le_0_l|].
      intros Hr. rewrite (Hapi Hr) in Hsame. done.
    - destruct (Hnone eq_refl) as [-> Hreply].
      eexists. repeat split; [cbn; lia|by intros ?%bool_decide_eq_true_1|].
      intros Hr. rewrite (Hapi Hr) in Hreply.
      eexists _, []. split; [done|]. by rewrite app_nil_r. }
  assert (Hnofill :
    stage_filled (step (session_state w)) (session_state w) = false).
  { unfold stage_filled, stage_memo. repeat (case_match; [lia|]). done. }
  rewrite Hnofill.
  destruct (decide (step (session_state w) = 4)) as [H4|H4].
  - destruct (final_stage _ _ _ _ H4 Hrun) as (-> & _ & _ & -> & _).
    exists []. rewrite app_nil_r. repeat split; [apply Nat.le_0_l|].
    by case_bool_decide.
  - rewrite off_stage in Hrun by lia. simplify_eq.
    exists []. rewrite app_nil_r. repeat split; [apply Nat.le_0_l|done].
Qed.


(** X4. A successful run at stage 0 shows the topic and the tutorial of
    the stored mapping and then the "Next" button, nothing else.  The run
    triggered by "Next" moves the session to stage 1 but still shows the
    stage-0 page, and no quiz content is generated in it. *)
Theorem topic_page_shows_stored_topic ui w w' :
  step (session_state w) = 0 ->
  run_game_step ui w = (Ok tt, w') ->
  (exists t topic tutorial,
     topic_info (session_state w') = Some t
     /\ json_get "topic" t = Some topic
     /\ json_get "tutorial" t = Some tutorial
     /\ page w' = (page w ++ [ESubheader "Step 1: Generate a Random Topic";
                             EWrite [VStr "**Topic:**"; VStr topic];
                             EWrite [VStr "**Tutorial:**"; VStr tutorial];
                             EButton "Next: Pronunciation from Hangul" None])%list)
  /\ step (session_state w')
     = (if bool_decide (clicked ui = Some "Next: Pronunciation from Hangul")
        then 1 else 0)
  /\ hangul_quiz_data (session_state w') = hangul_quiz_data (session_state w)
  /\ english_quiz_data (session_state w') = english_quiz_data (session_state w)
  /\ fill_blank_data (session_state w') = fill_blank_data (session_state w).
Proof.
  intros H0 Hrun.
  destruct (topic_stage_success _ _ _ H0 Hrun)
    as (t & topic & tutorial & Ht & Htopic & Htut & Hpage & Hstep).
  destruct (topic_stage _ _ _ _ H0 Hrun) as (Hh & He & Hb & _).
  split; [by exists t, topic, tutorial|]. done.
Qed.

(** X5. A stage index outside 0..4 (the script has no branch for it)
    leaves a dead session: every run renders nothing and changes
    nothing. *)
Theorem off_stage_is_dead uis w :
  ~ 0 <= step (session_state w) <= 4 ->
  entries backend rand uis w = w
  /\ forall ui, run_game_step ui w = (Ok tt, w).
Proof.
  intros Hoff. split; [|intros ui; by apply off_stage].
  induction uis as [|ui uis IH]; [done|].
  cbn [entries]. by rewrite off_stage.
Qed.


(** ** The invariant of a session *)

Lemma stage_filled_memo s σ σ' :
  s <> 0 -> stage_memo s σ' = stage_memo s σ ->
  stage_filled s σ' = stage_filled s σ.
Proof.
  intros Hs Hm. unfold stage_filled.
  replace (s =? 0) with false by lia. by rewrite Hm.
Qed.






(** How an interaction unfolds: with the callback, or without. *)
Lemma rerun_cases ui w :
  (exists l, clicked ui = Some l
             /\ button_on_page l (page w) = Some (Some cb_next_step)
             /\ rerun ui w
                = run_game_step ui
                    (mkWorld (mkSession (topic_info (session_state w))
                                (step (session_state w) + 1)
                                (hangul_quiz_data (session_state w))
                                (english_quiz_data (session_state w))
                                (fill_blank_data (session_state w)))
                             (api_calls w) (rng_draws w)
                             [ETitle "Korean Learning Game"]))
  \/ rerun ui w
     = run_game_step ui (mkWorld (session_state w) (api_calls w) (rng_draws w)
                                 [ETitle "Korean Learning Game"]).
Proof.
  unfold rerun. destruct (clicked ui) as [l|]; [|by right].
  destruct (button_on_page l (page w)) as [[[]|]|] eqn:Hb; [|by right..].
  left. by exists l.
Qed.




(** X8. At a quiz stage that is ready, the button that advances is
    rendered if and only if the run was triggered by "Check Answer": the
    user cannot move on without checking an answer first. *)
Theorem next_button_iff_checked ui w :
  let s := step (session_state w) in
  let w' := snd (run_game_step ui w) in
  1 <= s <= 3 ->
  quiz_ready s (session_state w) = true ->
  exists els,
    page w' = (page w ++ els)%list
    /\ (existsb is_callback_button els = true
        <-> clicked ui = Some "Check Answer").
Proof.
  intros s w' Hs Hready. subst s w'.
  assert (Hkeys := Hready). unfold quiz_ready in Hkeys.
  repeat (apply andb_prop in Hkeys as [Hkeys ?]).
  repeat match goal with
    | Hk : has_key _ _ = true |- _ => apply has_key_true in Hk as [? Hk]
    end.
  destruct (run_game_step ui w) as [r w'] eqn:Hrun. cbn [snd].
  edestruct (ready_stage_page ui w r w') as (_ & els & Hpage & Hcb & _); eauto.
  exists els. split; [done|]. rewrite Hcb. apply bool_decide_eq_true.
Qed.

(** X9. At a quiz stage that is ready, the correct answer and the
    explanation are written on the page exactly when "Check Answer" was
    pressed with a wrong selection, and then it is the stored correct
    answer and the stored explanation that are written; a right answer,
    or a run without the check, reveals neither. *)
Theorem wrong_answer_reveals ui w ca opts expl :
  let s := step (session_state w) in
  let w' := snd (run_game_step ui w) in
  let wrong := bool_decide (clicked ui = Some "Check Answer")
               && negb (py_eqb (radio_choice ui (radio_key s) opts) ca) in
  1 <= s <= 3 ->
  quiz_ready s (session_state w) = true ->
  stage_memo s (session_state w) !! "correct_answer" = Some ca ->
  stage_memo s (session_state w) !! "answer_choices" = Some opts ->
  stage_memo s (session_state w) !! "explanation" = Some expl ->
  exists els,
    page w' = (page w ++ els)%list
    /\ revealed "**Correct Answer:**" els = (if wrong then [ca] else [])
    /\ revealed "**Explanation:**" els = (if wrong then [expl] else []).
Proof.
  intros s w' wrong Hs Hready Hca Hopts Hexpl. subst s w' wrong.
  destruct (run_game_step ui w) as [r w'] eqn:Hrun. cbn [snd].
  destruct (ready_stage_page _ _ _ _ _ _ _ Hs Hready Hca Hopts Hexpl Hrun)
    as (_ & els & Hpage & _ & Hans & Hex & _).
  by exists els.
Qed.


(** ** The question stays the same *)

Lemma memo_stable_no_reset ui w r w' s :
  1 <= s <= 3 ->
  stage_filled s (session_state w) = true ->
  clicked ui <> Some "New Topic!" ->
  run_game_step ui w = (r, w') ->
  stage_memo s (session_state w') = stage_memo s (session_state w).
Proof.
  intros Hs Hf Hclick Hrun.
  destruct (decide (step (session_state w) = 4)) as [H4|H4].
  - destruct (final_stage _ _ _ _ H4 Hrun) as (_ & _ & -> & _).
    by rewrite bool_decide_eq_false_2.
  - destruct (memo_stable _ _ _ _ _ Hs Hf Hrun) as [?|Hfresh]; [done|].
    destruct (run_step_monotone _ _ _ _ Hrun) as [Hle | [? _]]; [|done].
    rewrite Hfresh in Hle. cbn in Hle.
    destruct (decide (1 <= step (session_state w) <= 3)) as [Hq|Hq].
    + destruct (quiz_stage_frame _ _ _ _ Hq Hrun) as (Hstep & _).
      rewrite Hfresh in Hstep. cbn in Hstep. lia.
    + destruct (decide (step (session_state w) = 0)) as [H0|H0].
      * destruct (topic_stage _ _ _ _ H0 Hrun) as (Hh & He & Hb & _).
        unfold stage_memo. by rewrite Hh, He, Hb.
      * rewrite off_stage in Hrun by lia. by simplify_eq.
Qed.

(** X10. Along any sequence of interactions in which the user does not
    press "New Topic!", the content of a filled quiz slot (question,
    correct answer, explanation, and the order of the answer choices)
    never changes, at whatever stage the session is. *)
Theorem question_fixed_until_new_topic w uis w' s :
  session_run backend rand w uis w' ->
  Forall (λ ui, clicked ui <> Some "New Topic!") uis ->
  1 <= s <= 3 ->
  stage_filled s (session_state w) = true ->
  stage_memo s (session_state w') = stage_memo s (session_state w).
Proof.
  intros Hrun Huis Hs. induction Hrun as [w|ui uis w w' _ _ IH]; [done|].
  apply Forall_cons in Huis as [Hui Huis]. intros Hf.
  assert (Hone : stage_memo s (session_state (snd (rerun ui w)))
                 = stage_memo s (session_state w)).
  { destruct (rerun_cases ui w) as [(l & _ & _ & ->) | ->];
      match goal with
      | |- context [run_game_step ui ?w0] =>
          destruct (run_game_step ui w0) as [r w1] eqn:Hrun1; cbn [snd];
          exact (memo_stable_no_reset ui w0 r w1 s Hs Hf Hui Hrun1)
      end. }
  rewrite <- Hone. apply IH; [done|].
  by rewrite (stage_filled_memo s (session_state w)) by (lia || done).
Qed.


(** ** Failure and success of a generation *)

(** X11. When generating a quiz stage fails on a missing key, the key is
    one the stage reads from the topic, the translation, the sentence or
    the transliteration, and the failure comes before any distractor
    request is sent: the keys of a distractor reply are never read. *)
Theorem generation_key_errors ui w k :
  let s := step (session_state w) in
  let w' := snd (run_game_step ui w) in
  1 <= s <= 3 ->
  stage_filled s (session_state w) = false ->
  fst (run_game_step ui w) = Raise (KeyError k) ->
  k ∈ ["topic"; "hangul"; "subject"; "sentence_with_blank";
       "final_sequence"; "thought_process"]
  /\ exists new,
       api_calls w' = (api_calls w ++ new)%list
       /\ Forall (λ req, fst req <> prompt_wrong_answers) new.
Proof.
  intros s w' Hs. subst s w'. unfold stage_filled, stage_memo at 1.
  destruct (run_game_step ui w) as [r w'] eqn:Hrun. cbn [fst snd].
  revert Hrun.
  destruct (quiz_stage_cases _ Hs) as [H|[H|H]]; rewrite H; cbn [Z.eqb Pos.eqb];
    intros Hrun Hf%negb_false_iff Hr; subst r; revert Hrun;
    enter_stage H; rewrite Hf.
  all: exec; intros Heq; simplify_eq; exec_proj; rewrite <- ?app_assoc; cbn [app].
  all: (split; [rewrite !elem_of_cons; tauto|]).
  all: first [ exists []; split; [by rewrite app_nil_r|constructor]
             | eexists; split; [reflexivity|repeat constructor; done] ].
Qed.

(** X12. Stage 1 succeeds whenever the topic is there, the translation
    has [hangul], the transliteration has [final_sequence] and
    [thought_process], and the backend answers the distractor request
    at all: with any mapping, even an empty one. *)
Theorem hangul_stage_succeeds ui w t topic r1 hangul r2 c e r3 :
  let n := length (api_calls w) in
  step (session_state w) = 1 ->
  hangul_quiz_data (session_state w) = ∅ ->
  topic_info (session_state w) = Some t ->
  json_get "topic" t = Some topic ->
  backend n = Some r1 ->
  json_get "hangul" r1 = Some hangul ->
  backend (n + 1)%nat = Some r2 ->
  json_get "final_sequence" r2 = Some c ->
  json_get "thought_process" r2 = Some e ->
  backend (n + 2)%nat = Some r3 ->
  fst (run_game_step ui w) = Ok tt.
Proof.
  intros n H Hempty Ht Htopic Hr1 Hh Hr2 Hc He Hr3. subst n. enter_stage H.
  unfold dict_is_empty. rewrite Hempty, bool_decide_eq_true_2 by done.
  exec; exec_proj; request_indices; by simplify_eq.
Qed.

(** X13. Stage 2 succeeds whenever the topic is there, the
    transliteration has [final_sequence] and [thought_process], and the
    backend answers the distractor request with any mapping. *)
Theorem english_stage_succeeds ui w t topic r1 c e r2 :
  let n := length (api_calls w) in
  step (session_state w) = 2 ->
  english_quiz_data (session_state w) = ∅ ->
  topic_info (session_state w) = Some t ->
  json_get "topic" t = Some topic ->
  backend n = Some r1 ->
  json_get "final_sequence" r1 = Some c ->
  json_get "thought_process" r1 = Some e ->
  backend (n + 1)%nat = Some r2 ->
  fst (run_game_step ui w) = Ok tt.
Proof.
  intros n H Hempty Ht Htopic Hr1 Hc He Hr2. subst n. enter_stage H.
  unfold dict_is_empty. rewrite Hempty, bool_decide_eq_true_2 by done.
  exec; exec_proj; request_indices; by simplify_eq.
Qed.

(** X14. Stage 3 succeeds whenever the topic is there, the sentence
    reply has [subject] and [sentence_with_blank], the transliteration
    has [final_sequence] and [thought_process], and the backend answers
    the distractor request with any mapping. *)
Theorem fill_blank_stage_succeeds ui w t topic r1 subject blank r2 c e r3 :
  let n := length (api_calls w) in
  step (session_state w) = 3 ->
  fill_blank_data (session_state w) = ∅ ->
  topic_info (session_state w) = Some t ->
  json_get "topic" t = Some topic ->
  backend n = Some r1 ->
  json_get "subject" r1 = Some subject ->
  json_get "sentence_with_blank" r1 = Some blank ->
  backend (n + 1)%nat = Some r2 ->
  json_get "final_sequence" r2 = Some c ->
  json_get "thought_process" r2 = Some e ->
  backend (n + 2)%nat = Some r3 ->
  fst (run_game_step ui w) = Ok tt.
Proof.
  intros n H Hempty Ht Htopic Hr1 Hs Hb Hr2 Hc He Hr3. subst n. enter_stage H.
  unfold dict_is_empty. rewrite Hempty, bool_decide_eq_true_2 by done.
  exec; exec_proj; request_indices; by simplify_eq.
Qed.

End Facts.

(** * The claims on a concrete session *)

(** Stage 1 entered with the well-behaved backend: three distractors, four
    choices. *)
Lemma choices_shape_stable_witness :
  1 <= step (session_state stage1_world) <= 3
  /\ stage_filled 1 (session_state stage1_world) = false
  /\ fst (run_game_step demo_backend demo_rand no_click stage1_world) = Ok tt
  /\ exists c l d k,
       stage_memo 1 (session_state
         (snd (run_game_step demo_backend demo_rand no_click stage1_world)))
         !! "correct_answer" = Some (VStr c)
       /\ stage_memo 1 (session_state
            (snd (run_game_step demo_backend demo_rand no_click stage1_world)))
            !! "answer_choices" = Some (VList l)
       /\ demo_backend k = Some d
       /\ api_calls (snd (run_game_step demo_backend demo_rand no_click
                            stage1_world)) !! k
          = Some (prompt_wrong_answers, c)
       /\ (length (values d) = 3%nat -> c ∉ values d ->
           length l = 4%nat /\ occurrences c l = 1%nat)
       /\ forall uis,
            stage_memo 1 (session_state (entries demo_backend demo_rand uis
                 (snd (run_game_step demo_backend demo_rand no_click stage1_world))))
              !! "answer_choices" = Some (VList l)
            /\ rng_draws (entries demo_backend demo_rand uis
                 (snd (run_game_step demo_backend demo_rand no_click stage1_world)))
               = rng_draws
                   (snd (run_game_step demo_backend demo_rand no_click stage1_world)).
Proof.
  assert (H1 : 1 <= step (session_state stage1_world) <= 3) by (cbn; lia).
  assert (H2 : stage_filled (step (session_state stage1_world))
                 (session_state stage1_world) = false) by reflexivity.
  assert (H3 : fst (run_game_step demo_backend demo_rand no_click stage1_world)
               = Ok tt) by (vm_compute; reflexivity).
  exact (conj H1 (conj H2 (conj H3
    (choices_shape_stable demo_backend demo_rand no_click stage1_world H1 H2 H3)))).
Defined.

(** C1 as stated fails: with a reply of two distractors the stage entry
    succeeds and stores three answer choices. *)
Lemma two_distractors_three_choices :
  fst (run_game_step two_distractors demo_rand no_click stage1_world) = Ok tt
  /\ stage_memo 1 (session_state
       (snd (run_game_step two_distractors demo_rand no_click stage1_world)))
       !! "answer_choices" = Some (VList ["ap-eul"; "ap-eu"; "a-peul"])
  /\ length ["ap-eul"; "ap-eu"; "a-peul"] <> 4%nat.
Proof. split; [|split]; [vm_compute; reflexivity..|cbn; lia]. Qed.

(** Entering stage 1 fills its slot with what the Hangul provider built. *)
Lemma stage_entry_once_witness :
  0 <= step (session_state stage1_world) <= 3
  /\ fst (run_game_step demo_backend demo_rand no_click stage1_world) = Ok tt
  /\ step (session_state
       (snd (run_game_step demo_backend demo_rand no_click stage1_world))) = 1
  /\ stage_filled 1 (session_state
       (snd (run_game_step demo_backend demo_rand no_click stage1_world))) = true
  /\ hangul_provider_result demo_backend stage1_world
       (snd (run_game_step demo_backend demo_rand no_click stage1_world)).
Proof.
  assert (H1 : 0 <= step (session_state stage1_world) <= 3) by (cbn; lia).
  assert (H2 : fst (run_game_step demo_backend demo_rand no_click stage1_world)
               = Ok tt) by (vm_compute; reflexivity).
  assert (H3 : step (session_state
                 (snd (run_game_step demo_backend demo_rand no_click stage1_world)))
               = step (session_state stage1_world)) by (vm_compute; reflexivity).
  assert (H := stage_entry_once demo_backend demo_rand no_click stage1_world
                 H1 H2 H3).
  exact (conj H1 (conj H2 (conj H3
    (conj (proj1 H) (proj1 (proj2 H) eq_refl))))).
Defined.


(** Three equal distractors come back as three equal distractors. *)
Lemma wrong_answers_unchecked_witness :
  fst (create_wrong_answers same_distractors "ap-eul" new_world)
  = Ok ["ap-eu"; "ap-eu"; "ap-eu"].
Proof.
  exact (proj1 (wrong_answers_unchecked same_distractors "ap-eul" new_world
                  _ eq_refl)).
Defined.

(** C4 as stated fails: three equal distractors are returned as they are,
    and so are two distractors; the builder raises in neither case. *)
Lemma duplicate_distractors_accepted :
  fst (create_wrong_answers same_distractors "ap-eul" new_world)
  = Ok ["ap-eu"; "ap-eu"; "ap-eu"]
  /\ fst (create_wrong_answers two_distractors "ap-eul"
            (mkWorld fresh_session [(prompt_random_topic, "a");
               (prompt_english_to_korean, "b");
               (prompt_hangul_pronunciation, "c")] 0 []))
     = Ok ["a-peul"; "ap-eu"].
Proof. split; reflexivity. Qed.

(** From the first page, pressing "Next" moves the stage index forward. *)
Lemma stage_index_monotone_bounded_witness :
  0 <= step (session_state loaded_world)
  /\ step (session_state loaded_world)
     <= step (session_state
          (snd (rerun demo_backend demo_rand
                  (click "Next: Pronunciation from Hangul") loaded_world)))
  /\ step (session_state
       (snd (rerun demo_backend demo_rand
               (click "Next: Pronunciation from Hangul") loaded_world))) <= 4.
Proof.
  apply (stage_index_monotone_bounded demo_backend demo_rand loaded_world
           [click "Next: Pronunciation from Hangul"]).
  - apply reach_load. reflexivity.
  - apply run_cons; [|apply run_nil]. vm_compute. by eexists.
  - constructor; [discriminate|constructor].
Defined.

(** C5 as stated fails: advancing at stage 4 is not a no-op, the stage
    index becomes 5. *)
Lemma next_step_past_last_stage :
  step (session_state stage4_world) = 4
  /\ step (session_state (snd (next_step stage4_world))) = 5.
Proof. split; reflexivity. Qed.

(** The scenario of the specification: no [final_sequence] at stage 1. *)
Lemma failed_entry_keeps_session_witness :
  fst (run_game_step no_final_sequence demo_rand no_click stage1_world)
  = Raise (KeyError "final_sequence")
  /\ session_state (snd (run_game_step no_final_sequence demo_rand no_click
                           stage1_world))
     = session_state stage1_world
  /\ stage_filled 1 (session_state (snd (run_game_step no_final_sequence
                                           demo_rand no_click stage1_world)))
     = stage_filled 1 (session_state stage1_world).
Proof.
  assert (H1 : fst (run_game_step no_final_sequence demo_rand no_click stage1_world)
               = Raise (KeyError "final_sequence")) by (vm_compute; reflexivity).
  assert (H2 : 1 <= step (session_state stage1_world) <= 3
               \/ KeyError "final_sequence" = APIError) by (left; cbn; lia).
  exact (conj H1 (failed_entry_keeps_session no_final_sequence demo_rand
                    no_click stage1_world _ H1 H2)).
Defined.

(** C6 as stated fails at stage 0: a reply without [topic] is stored before
    the lookup raises, so the failed run has changed the session, and the
    next run raises again without asking the backend. *)
Lemma missing_topic_is_memoized :
  fst (run_game_step no_topic demo_rand no_click new_world)
  = Raise (KeyError "topic")
  /\ topic_info (session_state new_world) = None
  /\ topic_info (session_state
       (snd (run_game_step no_topic demo_rand no_click new_world)))
     = Some [("tutorial", "sagwa")]
  /\ fst (run_game_step demo_backend demo_rand no_click
            (snd (run_game_step no_topic demo_rand no_click new_world)))
     = Raise (KeyError "topic").
Proof. repeat split; vm_compute; reflexivity. Qed.

(** "End Game" at stage 4. *)
Lemma end_game_halts_run_only_witness :
  fst (run_game_step demo_backend demo_rand (click "End Game") stage4_world) = Halt
  /\ session_state (snd (run_game_step demo_backend demo_rand (click "End Game")
                           stage4_world))
     = session_state stage4_world.
Proof.
  assert (H := end_game_halts_run_only demo_backend demo_rand (click "End Game")
                 stage4_world eq_refl eq_refl eq_refl).
  exact (conj (proj1 H) (proj1 (proj2 H))).
Defined.

(** C8 as stated fails: after "End Game" the next operation does not fail;
    pressing "New Topic!" succeeds and resets the game. *)
Lemma new_topic_after_end_game :
  fst (run_game_step demo_backend demo_rand (click "End Game") stage4_world) = Halt
  /\ fst (rerun demo_backend demo_rand (click "New Topic!")
            (snd (run_game_step demo_backend demo_rand (click "End Game")
                    stage4_world)))
     = Ok tt
  /\ session_state
       (snd (rerun demo_backend demo_rand (click "New Topic!")
               (snd (run_game_step demo_backend demo_rand (click "End Game")
                       stage4_world))))
     = fresh_session.
Proof. repeat split; vm_compute; reflexivity. Qed.


(** Stage 1 entered with a reply of two distractors. *)
Lemma choices_contain_correct_witness :
  exists c l d k,
    stage_memo 1 (session_state
      (snd (run_game_step two_distractors demo_rand no_click stage1_world)))
      !! "correct_answer" = Some (VStr c)
    /\ stage_memo 1 (session_state
         (snd (run_game_step two_distractors demo_rand no_click stage1_world)))
         !! "answer_choices" = Some (VList l)
    /\ two_distractors k = Some d
    /\ api_calls (snd (run_game_step two_distractors demo_rand no_click
                         stage1_world)) !! k
       = Some (prompt_wrong_answers, c)
    /\ (length (api_calls stage1_world) <= k)%nat
    /\ c ∈ l
    /\ length l = (length (values d) + 1)%nat
    /\ occurrences c l = (occurrences c (values d) + 1)%nat.
Proof.
  apply (choices_contain_correct two_distractors demo_rand no_click stage1_world).
  - cbn. lia.
  - reflexivity.
  - vm_compute. reflexivity.
Defined.

(** * Further facts on a concrete session *)

(** Checking an answer at stage 1 leaves the question as it is. *)
Lemma question_fixed_until_new_topic_witness :
  stage_memo 1 (session_state
    (snd (rerun demo_backend demo_rand (answer "a-peul") quiz1_page_world)))
  = stage_memo 1 (session_state quiz1_page_world).
Proof.
  apply (question_fixed_until_new_topic demo_backend demo_rand quiz1_page_world
           [answer "a-peul"]).
  - apply run_cons; [|apply run_nil]. vm_compute. by eexists.
  - constructor; [discriminate|constructor].
  - lia.
  - vm_compute. reflexivity.
Defined.


(** The first page with "Next" pressed: stage 1 is reached, nothing of it
    is generated. *)
Lemma topic_page_shows_stored_topic_witness :
  step (session_state
    (snd (run_game_step demo_backend demo_rand
            (click "Next: Pronunciation from Hangul") new_world)))
  = (if bool_decide (clicked (click "Next: Pronunciation from Hangul")
                     = Some "Next: Pronunciation from Hangul")
     then 1 else 0)
  /\ hangul_quiz_data (session_state
       (snd (run_game_step demo_backend demo_rand
               (click "Next: Pronunciation from Hangul") new_world)))
     = hangul_quiz_data (session_state new_world).
Proof.
  assert (Hrun : run_game_step demo_backend demo_rand
                   (click "Next: Pronunciation from Hangul") new_world
                 = (Ok tt, snd (run_game_step demo_backend demo_rand
                                  (click "Next: Pronunciation from Hangul")
                                  new_world)))
    by (vm_compute; reflexivity).
  assert (H := topic_page_shows_stored_topic demo_backend demo_rand
                 (click "Next: Pronunciation from Hangul") new_world _
                 eq_refl Hrun).
  exact (conj (proj1 (proj2 H)) (proj1 (proj2 (proj2 H)))).
Defined.



(** With "Check Answer" pressed at stage 1 the "Next" button is there. *)
Lemma next_button_iff_checked_witness :
  exists els,
    page (snd (run_game_step demo_backend demo_rand (answer "ap-eul") quiz1_world))
    = (page quiz1_world ++ els)%list
    /\ (existsb is_callback_button els = true
        <-> clicked (answer "ap-eul") = Some "Check Answer").
Proof.
  apply (next_button_iff_checked demo_backend demo_rand (answer "ap-eul")
           quiz1_world).
  - vm_compute. split; discriminate.
  - vm_compute. reflexivity.
Defined.

(** A wrong answer at stage 1 reveals "ap-eul" and its explanation. *)
Lemma wrong_answer_reveals_witness :
  exists els,
    page (snd (run_game_step demo_backend demo_rand (answer "a-peul") quiz1_world))
    = (page quiz1_world ++ els)%list
    /\ revealed "**Correct Answer:**" els = [VStr "ap-eul"]
    /\ revealed "**Explanation:**" els = [VStr "sa-gwa"].
Proof.
  apply (wrong_answer_reveals demo_backend demo_rand (answer "a-peul")
           quiz1_world (VStr "ap-eul")
           (VList ["a-pool"; "ap-eul"; "ap-eu"; "a-peul"]) (VStr "sa-gwa")).
  - vm_compute. split; discriminate.
  - vm_compute. reflexivity.
  - vm_compute. reflexivity.
  - vm_compute. reflexivity.
  - vm_compute. reflexivity.
Defined.

(** Stage index 5: nothing happens any more. *)
Lemma off_stage_is_dead_witness :
  entries demo_backend demo_rand [no_click; click "New Topic!"] dead_world
  = dead_world
  /\ forall ui, run_game_step demo_backend demo_rand ui dead_world
                = (Ok tt, dead_world).
Proof.
  apply (off_stage_is_dead demo_backend demo_rand).
  cbn. lia.
Defined.

(** A transliteration without [final_sequence] at stage 1. *)
Lemma generation_key_errors_witness :
  "final_sequence" ∈ ["topic"; "hangul"; "subject"; "sentence_with_blank";
                      "final_sequence"; "thought_process"]
  /\ exists new,
       api_calls (snd (run_game_step no_final_sequence demo_rand no_click
                         stage1_world))
       = (api_calls stage1_world ++ new)%list
       /\ Forall (λ req, fst req <> prompt_wrong_answers) new.
Proof.
  apply (generation_key_errors no_final_sequence demo_rand no_click stage1_world).
  - cbn. lia.
  - reflexivity.
  - vm_compute. reflexivity.
Defined.

(** The three quiz stages succeed on well-formed replies. *)
Lemma hangul_stage_succeeds_witness :
  fst (run_game_step demo_backend demo_rand no_click stage1_world) = Ok tt.
Proof.
  apply (hangul_stage_succeeds demo_backend demo_rand no_click stage1_world
           apple "apple" [("hangul", "sagwa")] "sagwa"
           [("thought_process", "sa-gwa"); ("final_sequence", "ap-eul")]
           "ap-eul" "sa-gwa"
           [("mutation_1", "a-peul"); ("mutation_2", "ap-eu");
            ("mutation_3", "a-pool")]); reflexivity.
Defined.

Lemma english_stage_succeeds_witness :
  fst (run_game_step english_backend demo_rand no_click stage2_world) = Ok tt.
Proof.
  apply (english_stage_succeeds english_backend demo_rand no_click stage2_world
           apple "apple"
           [("thought_process", "sa-gwa"); ("final_sequence", "ap-eul")]
           "ap-eul" "sa-gwa"
           [("mutation_1", "a-peul"); ("mutation_2", "ap-eu");
            ("mutation_3", "a-pool")]); reflexivity.
Defined.

Lemma fill_blank_stage_succeeds_witness :
  fst (run_game_step sentence_backend demo_rand no_click stage3_world) = Ok tt.
Proof.
  apply (fill_blank_stage_succeeds sentence_backend demo_rand no_click
           stage3_world apple "apple"
           [("subject", "sagwa"); ("sentence_with_blank", "___ red")]
           "sagwa" "___ red"
           [("thought_process", "sa-gwa"); ("final_sequence", "sa-gwa")]
           "sa-gwa" "sa-gwa"
           [("mutation_1", "sa-ga"); ("mutation_2", "so-gwa");
            ("mutation_3", "sa-kwa")]); reflexivity.
Defined.
